(** * The Compiled Babel plugin: orchestration core

    A shallow embedding of [packages/babel-plugin/src/index.ts] (the second
    file of [src/packages/react/src/index.ts]): the [pre] hook, the
    [Program] enter/exit visitors, the [ImportDeclaration] visitor and the
    [TaggedTemplateExpression|CallExpression] visitor.

    Conventions.
    - JavaScript strings are sequences of UTF-16 code units: [list N].
    - [NodePath] objects, resolver objects, callbacks and [Cache] instances
      are JavaScript objects with identity; they are modelled by handles
      (natural numbers).
    - [undefined] is [None]; a value that the plugin only ever tests for
      truthiness and only ever sets to [true] is a [bool].
    - Babel, Node's [path] module and the sibling modules of the plugin that
      the file imports are interfaces (type classes); the visitors are
      written against them. *)

From Stdlib Require Import List String Ascii NArith Bool Arith Lia.
Import ListNotations.

(* ================================================================== *)
(** ** JavaScript strings *)

Definition jsstring := list N.

(** A string literal of the source, as code units. *)
Definition js (s : string) : jsstring :=
  map N_of_ascii (list_ascii_of_string s).

Module JsString.

(** [a === b] on strings. *)
Fixpoint eqb (a b : jsstring) : bool :=
  match a, b with
  | [], [] => true
  | x :: a', y :: b' => N.eqb x y && eqb a' b'
  | _, _ => false
  end.

(** [s.startsWith(p)]. *)
Fixpoint startsWith (s p : jsstring) : bool :=
  match p, s with
  | [], _ => true
  | y :: p', x :: s' => N.eqb x y && startsWith s' p'
  | _ :: _, [] => false
  end.

(** [s.endsWith(p)]. *)
Definition endsWith (s p : jsstring) : bool :=
  startsWith (rev s) (rev p).

(** [s[0] === c] for a one-character literal [c]; [s[0]] is [undefined]
    on the empty string. *)
Definition firstIs (c : N) (s : jsstring) : bool :=
  match s with
  | x :: _ => N.eqb x c
  | [] => false
  end.

(** Truthiness of a string: every string but the empty one. *)
Definition truthy (s : jsstring) : bool :=
  match s with
  | [] => false
  | _ :: _ => true
  end.

(** The remainder after a literal prefix, if [s] starts with it. *)
Fixpoint stripPrefix (p s : jsstring) : option jsstring :=
  match p, s with
  | [], _ => Some s
  | y :: p', x :: s' => if N.eqb x y then stripPrefix p' s' else None
  | _ :: _, [] => None
  end.

End JsString.

Definition DOT : N := 46.
Definition STAR : N := 42.

(** The class [\s] of a JavaScript regular expression without the [u] flag:
    WhiteSpace and LineTerminator code units. *)
Definition isSpace (c : N) : bool :=
  (N.leb 9 c && N.leb c 13)
  || N.eqb c 32 || N.eqb c 160 || N.eqb c 5760
  || (N.leb 8192 c && N.leb c 8202)
  || N.eqb c 8232 || N.eqb c 8233 || N.eqb c 8239 || N.eqb c 8287
  || N.eqb c 12288 || N.eqb c 65279.

Definition orElse {A} (x y : option A) : option A :=
  match x with
  | Some _ => x
  | None => y
  end.

(* ================================================================== *)
(** ** The three regular expressions of the file

    [/\*?\s*@jsxImportSource\s+([^\s]+)/] and [/\*?\s*@jsx\s+([^\s]+)/]
    differ in the keyword only.  The matcher follows the pattern left to
    right, greedy quantifiers first and backtracking on failure, and tries
    every start position from the left, as [RegExp.prototype.exec] does for
    a pattern without flags.  The result is capture group 1 ([None] for
    [null]); the plugin reads nothing else of the match. *)

Section AnnotationRegex.

Variable keyword : jsstring.

(** [[^\s]+] at the end of the pattern: the longest run. *)
Fixpoint takeNonSpace (s : jsstring) : jsstring :=
  match s with
  | c :: r => if isSpace c then [] else c :: takeNonSpace r
  | [] => []
  end.

Definition m_capture (s : jsstring) : option jsstring :=
  match takeNonSpace s with
  | [] => None
  | cap => Some cap
  end.

(** The [\s*] that remains of [\s+] after its first character. *)
Fixpoint m_spaces_capture (s : jsstring) : option jsstring :=
  match s with
  | c :: r =>
      if isSpace c then orElse (m_spaces_capture r) (m_capture s)
      else m_capture s
  | [] => m_capture []
  end.

(** [\s+([^\s]+)]. *)
Definition m_after_keyword (s : jsstring) : option jsstring :=
  match s with
  | c :: r => if isSpace c then m_spaces_capture r else None
  | [] => None
  end.

(** The literal keyword, then the rest. *)
Definition m_keyword (s : jsstring) : option jsstring :=
  match JsString.stripPrefix keyword s with
  | Some r => m_after_keyword r
  | None => None
  end.

(** [\s*] before the keyword. *)
Fixpoint m_spaces_keyword (s : jsstring) : option jsstring :=
  match s with
  | c :: r =>
      if isSpace c then orElse (m_spaces_keyword r) (m_keyword s)
      else m_keyword s
  | [] => m_keyword []
  end.

(** The whole pattern anchored at the head of [s]: [\*?] first. *)
Definition m_here (s : jsstring) : option jsstring :=
  match s with
  | c :: r =>
      if N.eqb c STAR then orElse (m_spaces_keyword r) (m_spaces_keyword s)
      else m_spaces_keyword s
  | [] => m_spaces_keyword []
  end.

(** [regex.exec(s)], projected on group 1. *)
Fixpoint annotation_exec (s : jsstring) : option jsstring :=
  match m_here s with
  | Some cap => Some cap
  | None =>
      match s with
      | [] => None
      | _ :: r => annotation_exec r
      end
  end.

End AnnotationRegex.

Definition JSX_SOURCE_ANNOTATION_REGEX_exec : jsstring -> option jsstring :=
  annotation_exec (js "@jsxImportSource").

Definition JSX_ANNOTATION_REGEX_exec : jsstring -> option jsstring :=
  annotation_exec (js "@jsx").

Definition DEFAULT_IMPORT_SOURCE : jsstring := js "@compiled/react".

(** [/(x|X)css={/] anchored at the head of [s]. *)
Definition xcss_here (s : jsstring) : bool :=
  match s with
  | c :: r =>
      (N.eqb c 120 || N.eqb c 88) && JsString.startsWith r (js "css={")
  | [] => false
  end.

(** [/(x|X)css={/.test(s)]. *)
Fixpoint xcss_test (s : jsstring) : bool :=
  xcss_here s
  || match s with
     | [] => false
     | _ :: r => xcss_test r
     end.

(* ================================================================== *)
(** ** Data model *)

Definition NodePath := nat.
Definition CacheRef := nat.
Definition ResolverRef := nat.
Definition CallbackRef := nat.

(** The five API names of the [as const] tuple in [ImportDeclaration]. *)
Inductive ApiName : Type :=
| API_styled
| API_ClassNames
| API_css
| API_keyframes
| API_cssMap.

Definition apiNames : list ApiName :=
  [API_styled; API_ClassNames; API_css; API_keyframes; API_cssMap].

Definition apiName_string (a : ApiName) : jsstring :=
  match a with
  | API_styled => js "styled"
  | API_ClassNames => js "ClassNames"
  | API_css => js "css"
  | API_keyframes => js "keyframes"
  | API_cssMap => js "cssMap"
  end.

(** [state.compiledImports], when it is an object: the local name under
    which each API was imported. *)
Module CompiledImports.

Record t : Type := {
  styled : option jsstring;
  ClassNames : option jsstring;
  css : option jsstring;
  keyframes : option jsstring;
  cssMap : option jsstring
}.

(** The object literal [{}]. *)
Definition empty : t :=
  {| styled := None; ClassNames := None; css := None;
     keyframes := None; cssMap := None |}.

(** [record[apiName]]. *)
Definition get (a : ApiName) (r : t) : option jsstring :=
  match a with
  | API_styled => styled r
  | API_ClassNames => ClassNames r
  | API_css => css r
  | API_keyframes => keyframes r
  | API_cssMap => cssMap r
  end.

(** [record[apiName] = local]. *)
Definition set (a : ApiName) (local : jsstring) (r : t) : t :=
  match a with
  | API_styled =>
      {| styled := Some local; ClassNames := ClassNames r; css := css r;
         keyframes := keyframes r; cssMap := cssMap r |}
  | API_ClassNames =>
      {| styled := styled r; ClassNames := Some local; css := css r;
         keyframes := keyframes r; cssMap := cssMap r |}
  | API_css =>
      {| styled := styled r; ClassNames := ClassNames r; css := Some local;
         keyframes := keyframes r; cssMap := cssMap r |}
  | API_keyframes =>
      {| styled := styled r; ClassNames := ClassNames r; css := css r;
         keyframes := Some local; cssMap := cssMap r |}
  | API_cssMap =>
      {| styled := styled r; ClassNames := ClassNames r; css := css r;
         keyframes := keyframes r; cssMap := Some local |}
  end.

End CompiledImports.

(** [this.opts.resolver]: an inline object or a module specifier. *)
Inductive ResolverOption : Type :=
| ResolverObject (r : ResolverRef)
| ResolverModule (specifier : jsstring).

(** The plugin options ([this.opts], [state.opts] in the visitors). *)
Module Opts.

Record t : Type := {
  cache : option bool;
  importSources : option (list jsstring);
  resolver : option ResolverOption;
  onIncludedFiles : option CallbackRef;
  importReact : option bool;
  processXcss : option bool
}.

(** [{ ...opts, cache: b }]. *)
Definition with_cache (b : bool) (o : t) : t :=
  {| cache := Some b; importSources := importSources o;
     resolver := resolver o; onIncludedFiles := onIncludedFiles o;
     importReact := importReact o; processXcss := processXcss o |}.

End Opts.

(** Truthiness of an optional boolean option ([!!x]). *)
Definition truthy_flag (x : option bool) : bool :=
  match x with
  | Some b => b
  | None => false
  end.

Record Comment : Type := { value : jsstring }.

(** The Babel [File] handed to [pre] and found at [state.file]:
    [file.opts.root], [file.ast.comments], [file.code]. *)
Record File : Type := {
  file_opts_root : option jsstring;
  ast_comments : option (list Comment);
  code : jsstring
}.

Inductive CleanupAction : Type :=
| remove
| replace.

Record Cleanup : Type := { path : NodePath; action : CleanupAction }.

(** [state.pragma]; a flag is [true] or was never set. *)
Record Pragma : Type := { jsxImportSource : bool; jsx : bool }.

(** The plugin pass ([this] in [pre], [state] in the visitors).  [sheets],
    [cssMap] and [transformCache] are written by [pre] and read by the
    handlers only. *)
Record State : Type := {
  opts : Opts.t;
  cwd : jsstring;
  filename : option jsstring;
  file : File;
  sheets : list (jsstring * jsstring);
  cssMap : list (jsstring * list jsstring);
  cache : CacheRef;
  includedFiles : list jsstring;
  pathsToCleanup : list Cleanup;
  pragma : Pragma;
  usesXcss : bool;
  importSources : list jsstring;
  resolver : option ResolverRef;
  transformCache : list (NodePath * jsstring);
  compiledImports : option CompiledImports.t
}.

Definition set_compiledImports (c : option CompiledImports.t) (s : State) : State :=
  {| opts := opts s; cwd := cwd s; filename := filename s; file := file s;
     sheets := sheets s; cssMap := cssMap s; cache := cache s;
     includedFiles := includedFiles s; pathsToCleanup := pathsToCleanup s;
     pragma := pragma s; usesXcss := usesXcss s;
     importSources := importSources s; resolver := resolver s;
     transformCache := transformCache s; compiledImports := c |}.

Definition set_pragma (p : Pragma) (s : State) : State :=
  {| opts := opts s; cwd := cwd s; filename := filename s; file := file s;
     sheets := sheets s; cssMap := cssMap s; cache := cache s;
     includedFiles := includedFiles s; pathsToCleanup := pathsToCleanup s;
     pragma := p; usesXcss := usesXcss s;
     importSources := importSources s; resolver := resolver s;
     transformCache := transformCache s;
     compiledImports := compiledImports s |}.

Definition set_usesXcss (b : bool) (s : State) : State :=
  {| opts := opts s; cwd := cwd s; filename := filename s; file := file s;
     sheets := sheets s; cssMap := cssMap s; cache := cache s;
     includedFiles := includedFiles s; pathsToCleanup := pathsToCleanup s;
     pragma := pragma s; usesXcss := b;
     importSources := importSources s; resolver := resolver s;
     transformCache := transformCache s;
     compiledImports := compiledImports s |}.

Definition set_pathsToCleanup (q : list Cleanup) (s : State) : State :=
  {| opts := opts s; cwd := cwd s; filename := filename s; file := file s;
     sheets := sheets s; cssMap := cssMap s; cache := cache s;
     includedFiles := includedFiles s; pathsToCleanup := q;
     pragma := pragma s; usesXcss := usesXcss s;
     importSources := importSources s; resolver := resolver s;
     transformCache := transformCache s;
     compiledImports := compiledImports s |}.

(* ================================================================== *)
(** ** Cache instances and the module-level [globalCache]

    [Cache] lives in [./utils/cache]; the plugin constructs instances and
    calls [initialize] on them.  An instance is a cell of the heap; the cell
    keeps the options of every [initialize] call it received. *)

Record CacheObject : Type := { initializedWith : list Opts.t }.

Record Globals : Type := {
  globalCache : option CacheRef;
  heap : list CacheObject
}.

(** [new Cache()]: a fresh object. *)
Definition new_Cache (g : Globals) : CacheRef * Globals :=
  (List.length (heap g),
   {| globalCache := globalCache g;
      heap := heap g ++ [ {| initializedWith := [] |} ] |}).

Definition set_globalCache (c : CacheRef) (g : Globals) : Globals :=
  {| globalCache := Some c; heap := heap g |}.

Fixpoint update_cell (i : nat) (f : CacheObject -> CacheObject)
    (h : list CacheObject) : list CacheObject :=
  match h, i with
  | [], _ => []
  | x :: h', O => f x :: h'
  | x :: h', S i' => x :: update_cell i' f h'
  end.

(** [cache.initialize(options)]. *)
Definition Cache_initialize (c : CacheRef) (o : Opts.t) (g : Globals) : Globals :=
  {| globalCache := globalCache g;
     heap := update_cell c
               (fun obj => {| initializedWith := initializedWith obj ++ [o] |})
               (heap g) |}.

(* ================================================================== *)
(** ** Interfaces of the environment *)

(** Node's [path] module. *)
Class PathModule : Type := {
  basename : jsstring -> jsstring;
  dirname : jsstring -> jsstring;
  resolve : jsstring -> jsstring -> jsstring;
  join : jsstring -> jsstring -> jsstring
}.

(** [path.isAbsolute] on a POSIX host. *)
Definition isAbsolute (p : jsstring) : bool := JsString.firstIs 47 p.

(** [package.json], [process.env] and [require]. *)
Class Host : Type := {
  packageJson_name : jsstring;
  packageJson_version : jsstring;
  env_TEST_PKG_VERSION : option jsstring;
  (** [require(require.resolve(specifier, { paths: [root] }))];
      [None] when it throws. *)
  require_resolver : jsstring -> jsstring -> option ResolverRef
}.

(* ================================================================== *)
(** ** [pre] *)

Section Pre.

Context {PM : PathModule} {HO : Host}.

(** The callback of [this.opts.importSources.map]. *)
Definition qualify_origin (rootPath origin : jsstring) : jsstring :=
  if JsString.firstIs DOT origin then join rootPath origin else origin.

(** The cache selection of [pre], up to [this.cache = cache]. *)
Definition select_cache (o : Opts.t) (g : Globals) : CacheRef * Globals :=
  let '(c, g1) :=
    match Opts.cache o with
    | Some true =>
        let '(c, g') := new_Cache g in
        (c, set_globalCache c g')
    | _ => new_Cache g
    end in
  (c, Cache_initialize c (Opts.with_cache (truthy_flag (Opts.cache o)) o) g1).

(** [pre(file)] on the pass [{opts; cwd; filename; file}].  The module
    state always changes; the pass is [None] when loading the resolver
    throws. *)
Definition pre (o : Opts.t) (cwd_ : jsstring) (filename_ : option jsstring)
    (f : File) (g : Globals) : Globals * option State :=
  let rootPath :=
    match file_opts_root f with
    | Some r => r
    | None => cwd_
    end in
  let '(c, g') := select_cache o g in
  let sources :=
    DEFAULT_IMPORT_SOURCE ::
      match Opts.importSources o with
      | Some origins => map (qualify_origin rootPath) origins
      | None => []
      end in
  let pass (r : option ResolverRef) : State :=
    {| opts := o; cwd := cwd_; filename := filename_; file := f;
       sheets := []; cssMap := []; cache := c;
       includedFiles := []; pathsToCleanup := [];
       pragma := {| jsxImportSource := false; jsx := false |};
       usesXcss := false; importSources := sources; resolver := r;
       transformCache := []; compiledImports := None |} in
  match Opts.resolver o with
  | Some (ResolverObject r) => (g', Some (pass (Some r)))
  | Some (ResolverModule specifier) =>
      match require_resolver specifier rootPath with
      | Some r => (g', Some (pass (Some r)))
      | None => (g', None)
      end
  | None => (g', Some (pass None))
  end.

End Pre.

(* ================================================================== *)
(** ** [Program.enter] *)

(** The body of the loop over [file.ast.comments]. *)
Definition enter_comment (s : State) (comment : Comment) : State :=
  let jsxSourceMatches := JSX_SOURCE_ANNOTATION_REGEX_exec (value comment) in
  let jsxMatches := JSX_ANNOTATION_REGEX_exec (value comment) in
  let s1 :=
    match jsxSourceMatches with
    | Some m1 =>
        if JsString.eqb m1 DEFAULT_IMPORT_SOURCE
        then set_pragma {| jsxImportSource := true; jsx := jsx (pragma s) |}
               (set_compiledImports (Some CompiledImports.empty) s)
        else s
    | None => s
    end in
  match jsxMatches with
  | Some m1 =>
      if JsString.eqb m1 (js "jsx")
      then set_pragma {| jsxImportSource := jsxImportSource (pragma s1);
                         jsx := true |} s1
      else s1
  | None => s1
  end.

Definition enter (s : State) : State :=
  let s1 :=
    match ast_comments (file s) with
    | Some comments => fold_left enter_comment comments s
    | None => s
    end in
  let processXcss_ :=
    match Opts.processXcss (opts s1) with
    | Some b => b
    | None => true
    end in
  if processXcss_ && xcss_test (code (file s1))
  then set_usesXcss true s1
  else s1.

(* ================================================================== *)
(** ** [ImportDeclaration] *)

(** [specifier.node.imported]: an [Identifier] or a [StringLiteral]
    ([import { "css" as c } from ...]). *)
Inductive ModuleExportName : Type :=
| Identifier (name : jsstring)
| StringLiteral (text : jsstring).

Inductive ImportSpecifierNode : Type :=
| ImportSpecifier (imported : ModuleExportName) (local : jsstring)
| ImportDefaultSpecifier (local : jsstring)
| ImportNamespaceSpecifier (local : jsstring).

(** [path.node] of an import declaration: [source.value] and
    [specifiers]. *)
Record ImportDeclarationNode : Type := {
  source : jsstring;
  specifiers : list ImportSpecifierNode
}.

Section ImportDeclarationVisitor.

Context {PM : PathModule}.

(** The callback of [this.importSources.some]. *)
Definition origin_matches (s : State) (userLandModule compiledModuleOrigin : jsstring)
    : bool :=
  if JsString.eqb userLandModule DEFAULT_IMPORT_SOURCE
     || JsString.eqb compiledModuleOrigin userLandModule
  then true
  else
    match filename s with
    | Some fn =>
        if JsString.truthy fn
           && JsString.firstIs DOT userLandModule
           && JsString.endsWith userLandModule (basename compiledModuleOrigin)
        then JsString.eqb (resolve (dirname fn) userLandModule) compiledModuleOrigin
        else false
    | None => false
    end.

Definition isCompiledModule (s : State) (userLandModule : jsstring) : bool :=
  existsb (origin_matches s userLandModule) (importSources s).

(** One turn of the loop over the five API names.  The second component
    is [specifier.node], which is [null] ([None]) once the specifier has
    been removed. *)
Definition enable_api (acc : State * option ImportSpecifierNode) (apiName : ApiName)
    : State * option ImportSpecifierNode :=
  let '(s, node) := acc in
  match compiledImports s, node with
  | Some record, Some (ImportSpecifier (Identifier name) local) =>
      if JsString.eqb name (apiName_string apiName)
      then (set_compiledImports (Some (CompiledImports.set apiName local record)) s,
            None)
      else acc
  | _, _ => acc
  end.

(** The callback of [path.get('specifiers').forEach]: the state and what
    is left of the specifier. *)
Definition visit_specifier (s : State) (specifier : ImportSpecifierNode)
    : State * option ImportSpecifierNode :=
  match compiledImports s, specifier with
  | Some _, ImportSpecifier _ _ => fold_left enable_api apiNames (s, Some specifier)
  | _, _ => (s, Some specifier)
  end.

(** The loop over the specifiers: the state and [path.node.specifiers]
    afterwards. *)
Fixpoint visit_specifiers (s : State) (l : list ImportSpecifierNode)
    : State * list ImportSpecifierNode :=
  match l with
  | [] => (s, [])
  | specifier :: rest =>
      let '(s1, remaining) := visit_specifier s specifier in
      let '(s2, kept) := visit_specifiers s1 rest in
      (s2, match remaining with
           | Some node => node :: kept
           | None => kept
           end)
  end.

(** The visitor: the state and the declaration afterwards, [None] when
    [path.remove()] ran. *)
Definition ImportDeclaration (node : ImportDeclarationNode) (s : State)
    : State * option ImportDeclarationNode :=
  let userLandModule := source node in
  if negb (isCompiledModule s userLandModule) then (s, Some node)
  else
    let s1 :=
      set_compiledImports
        (Some match compiledImports s with
              | Some record => record
              | None => CompiledImports.empty
              end) s in
    let '(s2, kept) := visit_specifiers s1 (specifiers node) in
    match kept with
    | [] => (s2, None)
    | _ :: _ => (s2, Some {| source := source node; specifiers := kept |})
    end.

End ImportDeclarationVisitor.

(* ================================================================== *)
(** ** Babel and the sibling modules *)

(** The nodes the plugin builds itself: [template.ast(code)], [t.noop()],
    [t.nullLiteral()]. *)
Inductive NewNode : Type :=
| TemplateAst (text : jsstring)
| Noop
| NullLiteral.

(** The part of [@babel/traverse] the visitors call.  [Tree] is the program
    the root path points into; a [NodePath] designates a node of it. *)
Class Babel : Type := {
  Tree : Type;
  Node : Type;
  (** [path.node] *)
  path_node : NodePath -> Tree -> Node;
  (** [program.unshiftContainer('body', node)] *)
  unshiftContainer_body : NewNode -> Tree -> Tree;
  (** [program.addComment('leading', text)] *)
  addComment_leading : jsstring -> Tree -> Tree;
  (** [program.scope.getBinding(name)] is not [undefined] *)
  scope_getBinding : jsstring -> Tree -> bool;
  (** [path.remove()]; [None] when Babel throws, as it does on a path
      that has already been removed *)
  path_remove : NodePath -> Tree -> option Tree;
  (** [path.replaceWith(node)]; [None] when Babel throws, as it does on a
      path that has already been removed *)
  path_replaceWith : NodePath -> NewNode -> Tree -> option Tree
}.

(** What the file imports from [@compiled/utils] and from its sibling
    modules.  The helpers of [Program.exit] get the program path (and read
    the state); the [visit*Path] handlers get a path and the state, and may
    change both the tree and the state. *)
Class Handlers {B : Babel} : Type := {
  unique : list jsstring -> list jsstring;
  preserveLeadingComments : Tree -> Tree;
  appendRuntimeImports : State -> Tree -> Tree;
  normalizePropsUsage : NodePath -> Tree -> Tree;
  visitClassNamesPath : NodePath -> Tree * State -> Tree * State;
  visitCssMapPath : NodePath -> Tree * State -> Tree * State;
  visitCssPropPath : NodePath -> Tree * State -> Tree * State;
  visitStyledPath : NodePath -> Tree * State -> Tree * State;
  visitXcssPropPath : NodePath -> Tree * State -> Tree * State;
  isCompiledCSSCallExpression : Node -> State -> bool;
  isCompiledCSSTaggedTemplateExpression : Node -> State -> bool;
  isCompiledKeyframesCallExpression : Node -> State -> bool;
  isCompiledKeyframesTaggedTemplateExpression : Node -> State -> bool;
  isCompiledStyledCallExpression : Node -> State -> bool;
  isCompiledStyledTaggedTemplateExpression : Node -> State -> bool;
  isCompiledCSSMapCallExpression : Node -> State -> bool
}.

(** What a visitor did to the outside, in order. *)
Inductive Event : Type :=
| EvPreserveLeadingComments
| EvAppendRuntimeImports
| EvUnshiftContainer (node : NewNode)
| EvAddComment (text : jsstring)
| EvOnIncludedFiles (callback : CallbackRef) (files : list jsstring)
| EvRemove (p : NodePath)
| EvReplaceWith (p : NodePath) (node : NewNode)
| EvNormalizePropsUsage (p : NodePath)
| EvVisitClassNamesPath (p : NodePath)
| EvVisitCssMapPath (p : NodePath)
| EvVisitCssPropPath (p : NodePath)
| EvVisitStyledPath (p : NodePath)
| EvVisitXcssPropPath (p : NodePath).

Section Visitors.

Context {PM : PathModule} {HO : Host} {B : Babel} {H : Handlers}.

(** The tree, the plugin pass and the trace of calls made so far. *)
Record World : Type := {
  tree : Tree;
  state : State;
  log : list Event
}.

(** Visitors are state transformers on the world.  A visitor returns
    ([Some]) or throws ([None]); what it did before throwing stays done. *)
Definition M (A : Type) : Type := World -> option A * World.

Definition ret {A} (a : A) : M A := fun w => (Some a, w).

Definition bind {A C} (m : M A) (k : A -> M C) : M C :=
  fun w =>
    match m w with
    | (Some a, w') => k a w'
    | (None, w') => (None, w')
    end.

Definition get_state : M State := fun w => (Some (state w), w).

Definition put_state (s : State) : M unit :=
  fun w => (Some tt, {| tree := tree w; state := s; log := log w |}).

(** Read something off the tree. *)
Definition inspect {A} (f : Tree -> A) : M A :=
  fun w => (Some (f (tree w)), w).

(** A call that changes the tree. *)
Definition mutate (e : Event) (f : Tree -> Tree) : M unit :=
  fun w =>
    (Some tt, {| tree := f (tree w); state := state w; log := log w ++ [e] |}).

(** A call that changes the tree or throws; a call that throws has
    changed nothing and is not recorded in the trace. *)
Definition attempt (e : Event) (f : Tree -> option Tree) : M unit :=
  fun w =>
    match f (tree w) with
    | Some t' => (Some tt, {| tree := t'; state := state w; log := log w ++ [e] |})
    | None => (None, w)
    end.

(** A call that changes nothing the model keeps. *)
Definition emit (e : Event) : M unit :=
  fun w => (Some tt, {| tree := tree w; state := state w; log := log w ++ [e] |}).

(** A call of a [visit*Path] handler. *)
Definition delegate (e : Event) (h : Tree * State -> Tree * State) : M unit :=
  fun w =>
    let '(t', s') := h (tree w, state w) in
    (Some tt, {| tree := t'; state := s'; log := log w ++ [e] |}).

Definition when (b : bool) (m : M unit) : M unit :=
  if b then m else ret tt.

(** [list.forEach(f)]. *)
Fixpoint forEach {A} (f : A -> M unit) (l : list A) : M unit :=
  match l with
  | [] => ret tt
  | x :: r => bind (f x) (fun _ => forEach f r)
  end.

Notation "x <- m ;; k" := (bind m (fun x => k))
  (at level 61, m at next level, right associativity).
Notation "m ;; k" := (bind m (fun _ => k))
  (at level 61, right associativity).

Definition run {A} (m : M A) (w : World) : World := snd (m w).

(** The visitor ended by an exception. *)
Definition threw {A} (m : M A) (w : World) : bool :=
  match fst (m w) with
  | Some _ => false
  | None => true
  end.

(** *** [Program.exit] *)

(** The callback of [state.pathsToCleanup.forEach]. *)
Definition clean_path (clean : Cleanup) : M unit :=
  match action clean with
  | remove => attempt (EvRemove (path clean)) (path_remove (path clean))
  | replace =>
      attempt (EvReplaceWith (path clean) NullLiteral)
        (path_replaceWith (path clean) NullLiteral)
  end.

(** [a || b] on strings. *)
Definition or_string (a b : jsstring) : jsstring :=
  if JsString.truthy a then a else b.

Definition provenance (s : State) : jsstring :=
  let filename_ :=
    or_string (basename match filename s with
                        | Some fn => fn
                        | None => []
                        end)
              (js "File") in
  let version :=
    or_string match env_TEST_PKG_VERSION with
              | Some v => v
              | None => []
              end
              packageJson_version in
  js " " ++ filename_ ++ js " generated by " ++ packageJson_name
     ++ js " v" ++ version ++ js " ".

Definition import_React : NewNode :=
  TemplateAst (js "import * as React from 'react'").

Definition import_forwardRef : NewNode :=
  TemplateAst (js "import { forwardRef } from 'react'").

(** Truthiness of [state.compiledImports?.styled]. *)
Definition styled_enabled (s : State) : bool :=
  match compiledImports s with
  | Some record =>
      match CompiledImports.styled record with
      | Some local => JsString.truthy local
      | None => false
      end
  | None => false
  end.

(** [!state.compiledImports && !state.usesXcss] *)
Definition nothing_to_do (s : State) : bool :=
  match compiledImports s with
  | Some _ => false
  | None => negb (usesXcss s)
  end.

Definition exit : M unit :=
  s <- get_state ;;
  if nothing_to_do s then ret tt
  else
    let shouldImportReact :=
      match Opts.importReact (opts s) with
      | Some b => b
      | None => true
      end in
    mutate EvPreserveLeadingComments preserveLeadingComments ;;
    mutate EvAppendRuntimeImports (appendRuntimeImports s) ;;
    let hasPragma := jsxImportSource (pragma s) || jsx (pragma s) in
    hasReact <- inspect (scope_getBinding (js "React")) ;;
    when (negb hasPragma && shouldImportReact && negb hasReact)
      (mutate (EvUnshiftContainer import_React)
         (unshiftContainer_body import_React)) ;;
    hasForwardRef <- inspect (scope_getBinding (js "forwardRef")) ;;
    when (styled_enabled s && negb hasForwardRef)
      (mutate (EvUnshiftContainer import_forwardRef)
         (unshiftContainer_body import_forwardRef)) ;;
    mutate (EvAddComment (provenance s)) (addComment_leading (provenance s)) ;;
    mutate (EvUnshiftContainer Noop) (unshiftContainer_body Noop) ;;
    match includedFiles s, Opts.onIncludedFiles (opts s) with
    | _ :: _, Some callback =>
        emit (EvOnIncludedFiles callback (unique (includedFiles s)))
    | _, _ => ret tt
    end ;;
    forEach clean_path (pathsToCleanup s).

(** *** [TaggedTemplateExpression|CallExpression] *)

Definition push_cleanup (c : Cleanup) : M unit :=
  s <- get_state ;;
  put_state (set_pathsToCleanup (pathsToCleanup s ++ [c]) s).

Definition hasStyles (n : Node) (s : State) : bool :=
  isCompiledCSSTaggedTemplateExpression n s
  || isCompiledStyledTaggedTemplateExpression n s
  || isCompiledCSSCallExpression n s
  || isCompiledStyledCallExpression n s.

Definition isCompiledUtil (n : Node) (s : State) : bool :=
  isCompiledCSSTaggedTemplateExpression n s
  || isCompiledKeyframesTaggedTemplateExpression n s
  || isCompiledCSSCallExpression n s
  || isCompiledKeyframesCallExpression n s.

Definition isCompiledComponent (n : Node) (s : State) : bool :=
  isCompiledStyledTaggedTemplateExpression n s
  || isCompiledStyledCallExpression n s.

Definition TaggedTemplateExpression_CallExpression (p : NodePath) : M unit :=
  s <- get_state ;;
  n <- inspect (path_node p) ;;
  if isCompiledCSSMapCallExpression n s
  then delegate (EvVisitCssMapPath p) (visitCssMapPath p)
  else
    when (hasStyles n s)
      (mutate (EvNormalizePropsUsage p) (normalizePropsUsage p)) ;;
    n' <- inspect (path_node p) ;;
    if isCompiledUtil n' s
    then push_cleanup {| path := p; action := replace |}
    else
      if isCompiledComponent n' s
      then delegate (EvVisitStyledPath p) (visitStyledPath p)
      else ret tt.

(** *** [JSXElement] and [JSXOpeningElement] *)

Definition JSXElement (p : NodePath) : M unit :=
  s <- get_state ;;
  match compiledImports s with
  | Some record =>
      match CompiledImports.ClassNames record with
      | Some local =>
          when (JsString.truthy local)
            (delegate (EvVisitClassNamesPath p) (visitClassNamesPath p))
      | None => ret tt
      end
  | None => ret tt
  end.

Definition JSXOpeningElement (p : NodePath) : M unit :=
  s <- get_state ;;
  when (usesXcss s) (delegate (EvVisitXcssPropPath p) (visitXcssPropPath p)) ;;
  s' <- get_state ;;
  match compiledImports s' with
  | Some _ => delegate (EvVisitCssPropPath p) (visitCssPropPath p)
  | None => ret tt
  end.

End Visitors.

(* ================================================================== *)
(** ** A POSIX instance of the [path] module

    Slash-separated paths, with [process.cwd()] taken to be the root
    directory.  The theorems below hold for every [PathModule]; this
    instance is what their examples run on. *)

Module Posix.

Definition SLASH : N := 47.

(** [p.split('/')]. *)
Fixpoint split (p : jsstring) : list jsstring :=
  match p with
  | [] => [[]]
  | c :: r =>
      if N.eqb c SLASH then [] :: split r
      else
        match split r with
        | seg :: segs => (c :: seg) :: segs
        | [] => [[c]]
        end
  end.

(** [segments.join('/')]. *)
Fixpoint unsplit (segs : list jsstring) : jsstring :=
  match segs with
  | [] => []
  | [seg] => seg
  | seg :: rest => seg ++ SLASH :: unsplit rest
  end.

(** Resolution of [.] and [..] segments; [stack] is the result so far,
    innermost segment first. *)
Fixpoint normalizeSegments (allowAboveRoot : bool) (stack segs : list jsstring)
    : list jsstring :=
  match segs with
  | [] => rev stack
  | seg :: rest =>
      if JsString.eqb seg [] || JsString.eqb seg (js ".")
      then normalizeSegments allowAboveRoot stack rest
      else if JsString.eqb seg (js "..")
      then
        match stack with
        | top :: below =>
            if JsString.eqb top (js "..")
            then normalizeSegments allowAboveRoot (seg :: stack) rest
            else normalizeSegments allowAboveRoot below rest
        | [] =>
            if allowAboveRoot
            then normalizeSegments allowAboveRoot [seg] rest
            else normalizeSegments allowAboveRoot [] rest
        end
      else normalizeSegments allowAboveRoot (seg :: stack) rest
  end.

Definition normalizeString (p : jsstring) (allowAboveRoot : bool) : jsstring :=
  unsplit (normalizeSegments allowAboveRoot [] (split p)).

Definition normalize (p : jsstring) : jsstring :=
  match p with
  | [] => js "."
  | _ :: _ =>
      let trailingSeparator := JsString.endsWith p [SLASH] in
      match normalizeString p (negb (isAbsolute p)) with
      | [] =>
          if isAbsolute p then [SLASH]
          else if trailingSeparator then js "./" else js "."
      | q =>
          let q' := if trailingSeparator then q ++ [SLASH] else q in
          if isAbsolute p then SLASH :: q' else q'
      end
  end.

Definition join (a b : jsstring) : jsstring :=
  match a, b with
  | [], [] => js "."
  | [], _ => normalize b
  | _, [] => normalize a
  | _, _ => normalize (a ++ SLASH :: b)
  end.

Definition resolve (from to : jsstring) : jsstring :=
  if isAbsolute to then SLASH :: normalizeString to false
  else if isAbsolute from then SLASH :: normalizeString (from ++ SLASH :: to) false
  else SLASH :: normalizeString (SLASH :: from ++ SLASH :: to) false.

Fixpoint dropTrailingEmpty (rsegs : list jsstring) : list jsstring :=
  match rsegs with
  | [] :: rest => dropTrailingEmpty rest
  | _ => rsegs
  end.

Definition basename (p : jsstring) : jsstring :=
  match dropTrailingEmpty (rev (split p)) with
  | last :: _ => last
  | [] => []
  end.

Definition dirname (p : jsstring) : jsstring :=
  match dropTrailingEmpty (rev (split p)) with
  | _ :: parents =>
      match unsplit (rev parents) with
      | [] => if isAbsolute p then js "/" else js "."
      | d => d
      end
  | [] => if isAbsolute p then js "/" else js "."
  end.

End Posix.

#[export] Instance posix_path : PathModule := {
  basename := Posix.basename;
  dirname := Posix.dirname;
  resolve := Posix.resolve;
  join := Posix.join
}.

(* ================================================================== *)
(** ** A small instance of Babel, the host and the handlers

    Programs whose body is a list of statements: imports, nodes inserted by
    the plugin, and expression statements holding one call or tagged
    template each, designated by its path. *)

Module Sample.

Inductive Callee : Type :=
| Name (name : jsstring)
| Member (object property : jsstring).

Inductive Expr : Type :=
| CallExpression (callee : Callee)
| TaggedTemplateExpression (tag : Callee)
| Null
| Other.

Inductive Statement : Type :=
| Inserted (n : NewNode)
| Import (locals : list jsstring)
| ExpressionStatement (p : NodePath) (e : Expr).

Record Program : Type := {
  leadingComments : list jsstring;
  body : list Statement
}.

Fixpoint find_node (p : NodePath) (l : list Statement) : Expr :=
  match l with
  | [] => Other
  | ExpressionStatement q e :: r => if Nat.eqb p q then e else find_node p r
  | _ :: r => find_node p r
  end.

Definition declares (name : jsstring) (st : Statement) : bool :=
  match st with
  | Import locals => existsb (JsString.eqb name) locals
  | _ => false
  end.

Definition is_at (p : NodePath) (st : Statement) : bool :=
  match st with
  | ExpressionStatement q _ => Nat.eqb p q
  | _ => false
  end.

Definition replace_at (p : NodePath) (st : Statement) : Statement :=
  match st with
  | ExpressionStatement q e =>
      if Nat.eqb p q then ExpressionStatement q Null else st
  | _ => st
  end.

Definition with_body (f : list Statement -> list Statement) (t : Program)
    : Program :=
  {| leadingComments := leadingComments t; body := f (body t) |}.

(** [unique] of [@compiled/utils]: first occurrences, in order. *)
Fixpoint unique (l : list jsstring) : list jsstring :=
  match l with
  | [] => []
  | x :: r => x :: filter (fun y => negb (JsString.eqb x y)) (unique r)
  end.

Definition local_is (c : Callee) (local : option jsstring) : bool :=
  match c, local with
  | Name n, Some l => JsString.eqb n l
  | _, _ => false
  end.

Definition object_is (c : Callee) (local : option jsstring) : bool :=
  match c, local with
  | Member o _, Some l => JsString.eqb o l
  | _, _ => false
  end.

Definition imported (a : ApiName) (s : State) : option jsstring :=
  match compiledImports s with
  | Some record => CompiledImports.get a record
  | None => None
  end.

(** Modelled from the spec: the predicates of [./utils/is-compiled], which
    is not among the sources.  A call or tag is an API construct when its
    identifier is the local name recorded for that API ("the record built
    here is the sole input the Dispatcher uses", "Alias transparency");
    styled constructs are reached through a member of the styled binding,
    as in [s.div`color: red;`]. *)
Definition is_call (a : ApiName) (n : Expr) (s : State) : bool :=
  match n with
  | CallExpression c =>
      match a with
      | API_styled => object_is c (imported a s)
      | _ => local_is c (imported a s)
      end
  | _ => false
  end.

Definition is_tagged (a : ApiName) (n : Expr) (s : State) : bool :=
  match n with
  | TaggedTemplateExpression c =>
      match a with
      | API_styled => object_is c (imported a s)
      | _ => local_is c (imported a s)
      end
  | _ => false
  end.

End Sample.

#[export] Instance sample_babel : Babel := {
  Tree := Sample.Program;
  Node := Sample.Expr;
  path_node := fun p t => Sample.find_node p (Sample.body t);
  unshiftContainer_body := fun n => Sample.with_body (cons (Sample.Inserted n));
  addComment_leading := fun text t =>
    {| Sample.leadingComments := text :: Sample.leadingComments t;
       Sample.body := Sample.body t |};
  scope_getBinding := fun name t => existsb (Sample.declares name) (Sample.body t);
  path_remove := fun p t =>
    if existsb (Sample.is_at p) (Sample.body t)
    then Some (Sample.with_body (filter (fun st => negb (Sample.is_at p st))) t)
    else None;
  path_replaceWith := fun p _ t =>
    if existsb (Sample.is_at p) (Sample.body t)
    then Some (Sample.with_body (map (Sample.replace_at p)) t)
    else None
}.

#[export] Instance sample_handlers : Handlers := {
  unique := Sample.unique;
  preserveLeadingComments := fun t => t;
  appendRuntimeImports := fun _ =>
    Sample.with_body (cons (Sample.Import [js "ax"; js "ix"]));
  normalizePropsUsage := fun _ t => t;
  visitClassNamesPath := fun _ w => w;
  visitCssMapPath := fun _ w => w;
  visitCssPropPath := fun _ w => w;
  visitStyledPath := fun _ w => w;
  visitXcssPropPath := fun _ w => w;
  isCompiledCSSCallExpression := Sample.is_call API_css;
  isCompiledCSSTaggedTemplateExpression := Sample.is_tagged API_css;
  isCompiledKeyframesCallExpression := Sample.is_call API_keyframes;
  isCompiledKeyframesTaggedTemplateExpression := Sample.is_tagged API_keyframes;
  isCompiledStyledCallExpression := Sample.is_call API_styled;
  isCompiledStyledTaggedTemplateExpression := Sample.is_tagged API_styled;
  isCompiledCSSMapCallExpression := Sample.is_call API_cssMap
}.

#[export] Instance sample_host : Host := {
  packageJson_name := js "@compiled/babel-plugin";
  packageJson_version := js "0.0.0";
  env_TEST_PKG_VERSION := None;
  require_resolver := fun _ _ => Some 0
}.

(** A pass as [pre] leaves it for a file compiled with default options. *)
Definition sample_opts : Opts.t :=
  {| Opts.cache := None; Opts.importSources := None; Opts.resolver := None;
     Opts.onIncludedFiles := None; Opts.importReact := None;
     Opts.processXcss := None |}.

Definition sample_file (comments : list string) (text : string) : File :=
  {| file_opts_root := Some (js "/repo");
     ast_comments := Some (map (fun c => {| value := js c |}) comments);
     code := js text |}.

Definition no_globals : Globals := {| globalCache := None; heap := [] |}.

(** The pass [pre] builds, or a blank one had [pre] thrown. *)
Definition pass_of (r : Globals * option State) (f : File) : State :=
  match snd r with
  | Some s => s
  | None =>
      {| opts := sample_opts; cwd := []; filename := None; file := f;
         sheets := []; cssMap := []; cache := 0; includedFiles := [];
         pathsToCleanup := [];
         pragma := {| jsxImportSource := false; jsx := false |};
         usesXcss := false; importSources := []; resolver := None;
         transformCache := []; compiledImports := None |}
  end.

Definition sample_state (o : Opts.t) (filename_ : option string)
    (comments : list string) (text : string) : State :=
  let f := sample_file comments text in
  pass_of (pre o (js "/repo")
             match filename_ with
             | Some n => Some (js n)
             | None => None
             end f no_globals) f.

(* ================================================================== *)
(** ** Vocabulary of the specification *)

Section SpecVocabulary.

Context {PM : PathModule} {HO : Host} {B : Babel} {H : Handlers}.

(** The call a queued cleanup action stands for. *)
Definition cleanup_event (c : Cleanup) : Event :=
  match action c with
  | remove => EvRemove (path c)
  | replace => EvReplaceWith (path c) NullLiteral
  end.

(** Its effect on the tree: the node is deleted, or a null literal takes
    its place; [None] when the Babel call throws. *)
Definition apply_cleanup (t : Tree) (c : Cleanup) : option Tree :=
  match action c with
  | remove => path_remove (path c) t
  | replace => path_replaceWith (path c) NullLiteral t
  end.

Definition is_cleanup_event (e : Event) : bool :=
  match e with
  | EvRemove _ | EvReplaceWith _ _ => true
  | _ => false
  end.

(** What a visitor appended to the trace. *)
Definition emitted (m : M unit) (w : World) : list Event :=
  skipn (List.length (log w)) (log (run m w)).

(** The tree once the call visitor is past its props normalization. *)
Definition normalized (p : NodePath) (w : World) : Tree :=
  if hasStyles (path_node p (tree w)) (state w)
  then normalizePropsUsage p (tree w)
  else tree w.

(** The trace of that normalization. *)
Definition normalization_events (p : NodePath) (w : World) : list Event :=
  if hasStyles (path_node p (tree w)) (state w)
  then [EvNormalizePropsUsage p]
  else [].

(** The tree operation behind an event of [Program.exit]; the handler
    events of the other visitors are not replayed. *)
Definition replay (s : State) (t : Tree) (e : Event) : Tree :=
  match e with
  | EvPreserveLeadingComments => preserveLeadingComments t
  | EvAppendRuntimeImports => appendRuntimeImports s t
  | EvUnshiftContainer n => unshiftContainer_body n t
  | EvAddComment text => addComment_leading text t
  | EvRemove p =>
      match path_remove p t with
      | Some t' => t'
      | None => t
      end
  | EvReplaceWith p n =>
      match path_replaceWith p n t with
      | Some t' => t'
      | None => t
      end
  | _ => t
  end.

(** The tree on which [Program.exit] looks up the [React] binding. *)
Definition tree_at_React_check (w : World) : Tree :=
  appendRuntimeImports (state w) (preserveLeadingComments (tree w)).

Definition is_import_React (e : Event) : bool :=
  match e with
  | EvUnshiftContainer (TemplateAst text) =>
      JsString.eqb text (js "import * as React from 'react'")
  | _ => false
  end.

(** [state.opts.root ?? this.cwd] of [pre]. *)
Definition rootPath_of (f : File) (cwd_ : jsstring) : jsstring :=
  match file_opts_root f with
  | Some r => r
  | None => cwd_
  end.

(** The configured origins as [pre] stores them after the default one. *)
Definition configured_origins (o : Opts.t) (rootPath : jsstring) : list jsstring :=
  match Opts.importSources o with
  | Some origins => map (qualify_origin rootPath) origins
  | None => []
  end.

(** Recognition of a module specifier in the words of the specification:
    the default origin, a configured origin exactly, or a relative
    specifier that passes the basename-suffix check and resolves, against
    the directory of the importing file, to a configured origin. *)
Definition Recognized (configured : list jsstring) (importer : option jsstring)
    (specifier : jsstring) : Prop :=
  specifier = DEFAULT_IMPORT_SOURCE
  \/ In specifier configured
  \/ (JsString.firstIs DOT specifier = true
      /\ exists importing_file origin,
           importer = Some importing_file
           /\ importing_file <> []
           /\ In origin configured
           /\ JsString.endsWith specifier (basename origin) = true
           /\ resolve (dirname importing_file) specifier = origin).

Definition resolve_is_absolute : Prop :=
  forall from to, isAbsolute (resolve from to) = true.

Definition join_keeps_absolute : Prop :=
  forall root p, isAbsolute root = true -> isAbsolute (join root p) = true.

End SpecVocabulary.

(** The API a name designates, if it is one of the five. *)
Definition api_of_name (name : jsstring) : option ApiName :=
  find (fun a => JsString.eqb name (apiName_string a)) apiNames.

(** The API a specifier enables: a named specifier whose imported name is
    an identifier and one of the five. *)
Definition api_of_specifier (sp : ImportSpecifierNode) : option ApiName :=
  match sp with
  | ImportSpecifier (Identifier name) _ => api_of_name name
  | _ => None
  end.

Definition local_of (sp : ImportSpecifierNode) : jsstring :=
  match sp with
  | ImportSpecifier _ l | ImportDefaultSpecifier l | ImportNamespaceSpecifier l => l
  end.

Definition enables_api (sp : ImportSpecifierNode) : bool :=
  match api_of_specifier sp with
  | Some _ => true
  | None => false
  end.

(** [{apiName -> localName}] added to the record for one specifier. *)
Definition record_specifier (r : CompiledImports.t) (sp : ImportSpecifierNode)
    : CompiledImports.t :=
  match api_of_specifier sp with
  | Some a => CompiledImports.set a (local_of sp) r
  | None => r
  end.

(** The imported name of a specifier however it is written, identifier or
    string literal. *)
Definition imported_name (sp : ImportSpecifierNode) : option jsstring :=
  match sp with
  | ImportSpecifier (Identifier name) _ => Some name
  | ImportSpecifier (StringLiteral text) _ => Some text
  | _ => None
  end.

(** ASCII lower-casing of a code unit. *)
Definition lower (c : N) : N :=
  if N.leb 65 c && N.leb c 90 then (c + 32)%N else c.

Fixpoint contains (s p : jsstring) : bool :=
  JsString.startsWith s p
  || match s with
     | [] => false
     | _ :: r => contains r p
     end.

(** The scan as the specification words it: [xcss={] in any letter
    casing. *)
Definition xcss_test_ignoring_case (text : jsstring) : bool :=
  contains (map lower text) (js "xcss={").

(** Sample worlds. *)
Definition sample_program (stmts : list Sample.Statement) : Sample.Program :=
  {| Sample.leadingComments := []; Sample.body := stmts |}.

Definition sample_world (stmts : list Sample.Statement) (s : State) : World :=
  {| tree := sample_program stmts; state := s; log := [] |}.

(** A comment that turns [pragma.jsx] on. *)
Definition sets_jsx_pragma (c : Comment) : bool :=
  match JSX_ANNOTATION_REGEX_exec (value c) with
  | Some m1 => JsString.eqb m1 (js "jsx")
  | None => false
  end.

(** Sample inputs. *)

(** A file without comments or text. *)
Definition empty_file : File := sample_file [] EmptyString.

(** [import { "css" as c } from '@compiled/react'] in [/repo/src/app.tsx]. *)
Definition string_named_specifier : ImportSpecifierNode :=
  ImportSpecifier (StringLiteral (js "css")) (js "c").

Definition string_named_import : ImportDeclarationNode :=
  {| source := DEFAULT_IMPORT_SOURCE; specifiers := [string_named_specifier] |}.

Definition app_pass : State :=
  sample_state sample_opts (Some "/repo/src/app.tsx"%string) [] EmptyString.

(** A file whose only comment is the pragma of another JSX factory. *)
Definition other_pragma_comment : jsstring := js "* @jsx h ".

Definition other_pragma_pass : State :=
  sample_state sample_opts (Some "/repo/src/app.tsx"%string)
    ["* @jsx h "%string] EmptyString.

(** A file that spells the attribute in capitals. *)
Definition capitals_pass : State :=
  sample_state sample_opts (Some "/repo/src/app.tsx"%string) []
    "<Box XCSS={styles} />".

Definition shared_cache_opts : Opts.t :=
  {| Opts.cache := Some true; Opts.importSources := None;
     Opts.resolver := None; Opts.onIncludedFiles := None;
     Opts.importReact := None; Opts.processXcss := None |}.

(** [import { css, styled as s }, Compiled from '@compiled/react'], then a
    [css(...)] call at path 1 and [s.div`...`] at path 2. *)
Definition api_import : ImportDeclarationNode :=
  {| source := DEFAULT_IMPORT_SOURCE;
     specifiers := [ImportSpecifier (Identifier (js "css")) (js "css");
                    ImportSpecifier (Identifier (js "styled")) (js "s");
                    ImportDefaultSpecifier (js "Compiled")] |}.

Definition api_statements : list Sample.Statement :=
  [Sample.ExpressionStatement 1 (Sample.CallExpression (Sample.Name (js "css")));
   Sample.ExpressionStatement 2
     (Sample.TaggedTemplateExpression (Sample.Member (js "s") (js "div")))].

Definition api_pass : State := fst (ImportDeclaration api_import (enter app_pass)).

Definition api_world : World := sample_world api_statements api_pass.

(** The same world once the visitor has seen the call at path 1. *)
Definition queued_world : World :=
  run (TaggedTemplateExpression_CallExpression 1) api_world.

(** A file that imports nothing from Compiled. *)
Definition plain_world : World :=
  sample_world
    [Sample.Import [js "React"];
     Sample.ExpressionStatement 1 (Sample.CallExpression (Sample.Name (js "f")))]
    (enter app_pass).

(** [importSources: ['./theme']] under the root [/repo]. *)
Definition theme_opts : Opts.t :=
  {| Opts.cache := None; Opts.importSources := Some [js "./theme"];
     Opts.resolver := None; Opts.onIncludedFiles := None;
     Opts.importReact := None; Opts.processXcss := None |}.

Definition theme_pass : State :=
  sample_state theme_opts (Some "/repo/src/app.tsx"%string) [] EmptyString.

Definition anonymous_theme_pass : State := sample_state theme_opts None [] EmptyString.

Definition jsx_pragma_pass : State :=
  sample_state sample_opts (Some "/repo/src/app.tsx"%string)
    ["* @jsx jsx "%string] EmptyString.

Definition xcss_pass : State :=
  sample_state sample_opts (Some "/repo/src/app.tsx"%string) []
    "<Box Xcss={styles} />".



(** The same options under the relative root [..], without a filename. *)
Definition upward_root_file : File :=
  {| file_opts_root := Some (js ".."); ast_comments := Some []; code := [] |}.

Definition upward_root_pass : State :=
  pass_of (pre theme_opts (js "/repo") None upward_root_file no_globals)
    upward_root_file.

(** Two files compiled one after the other with [cache: true]. *)
Definition first_shared : Globals * option State :=
  pre shared_cache_opts (js "/repo") (Some (js "/repo/a.tsx"))
    empty_file no_globals.

Definition second_shared : Globals * option State :=
  pre shared_cache_opts (js "/repo") (Some (js "/repo/b.tsx"))
    empty_file (fst first_shared).

(* ================================================================== *)
(** ** Vocabulary for the further properties *)

(** A text on which an annotation pattern can match: the keyword, at least
    one whitespace character, then a character that is not whitespace. *)
Definition annotation_shape (keyword s : jsstring) : Prop :=
  exists before ws c0 rest,
    s = before ++ keyword ++ ws ++ c0 :: rest
    /\ ws <> []
    /\ forallb isSpace ws = true
    /\ isSpace c0 = false.

(** A comment that turns the [jsxImportSource] pragma on. *)
Definition sets_source_pragma (c : Comment) : bool :=
  match JSX_SOURCE_ANNOTATION_REGEX_exec (value c) with
  | Some m1 => JsString.eqb m1 DEFAULT_IMPORT_SOURCE
  | None => false
  end.

(** [file.ast.comments], the empty list when there is none. *)
Definition comments_of (f : File) : list Comment :=
  match ast_comments f with
  | Some comments => comments
  | None => []
  end.

(** Two passes that differ at most in [compiledImports], [pragma] and
    [usesXcss]. *)
Definition same_but_flags (s s' : State) : Prop :=
  opts s' = opts s /\ cwd s' = cwd s /\ filename s' = filename s
  /\ file s' = file s /\ sheets s' = sheets s /\ cssMap s' = cssMap s
  /\ cache s' = cache s /\ includedFiles s' = includedFiles s
  /\ pathsToCleanup s' = pathsToCleanup s
  /\ importSources s' = importSources s /\ resolver s' = resolver s
  /\ transformCache s' = transformCache s.

Section FurtherVocabulary.

Context {PM : PathModule} {HO : Host} {B : Babel} {H : Handlers}.

(** The destructuring default [importReact: shouldImportReact = true]. *)
Definition shouldImportReact_of (s : State) : bool :=
  match Opts.importReact (opts s) with
  | Some b => b
  | None => true
  end.

(** What [Program.exit] emits for the [React] import. *)
Definition React_import_events (w : World) : list Event :=
  if negb (jsxImportSource (pragma (state w)) || jsx (pragma (state w)))
     && shouldImportReact_of (state w)
     && negb (scope_getBinding (js "React") (tree_at_React_check w))
  then [EvUnshiftContainer import_React]
  else [].

(** The tree on which it looks up the [forwardRef] binding. *)
Definition tree_at_forwardRef_check (w : World) : Tree :=
  fold_left (replay (state w)) (React_import_events w) (tree_at_React_check w).

Definition forwardRef_import_events (w : World) : list Event :=
  if styled_enabled (state w)
     && negb (scope_getBinding (js "forwardRef") (tree_at_forwardRef_check w))
  then [EvUnshiftContainer import_forwardRef]
  else [].

Definition included_files_events (s : State) : list Event :=
  match includedFiles s, Opts.onIncludedFiles (opts s) with
  | _ :: _, Some callback => [EvOnIncludedFiles callback (unique (includedFiles s))]
  | _, _ => []
  end.

Definition is_import_forwardRef (e : Event) : bool :=
  match e with
  | EvUnshiftContainer (TemplateAst text) =>
      JsString.eqb text (js "import { forwardRef } from 'react'")
  | _ => false
  end.


Definition is_included_files_event (e : Event) : bool :=
  match e with
  | EvOnIncludedFiles _ _ => true
  | _ => false
  end.

(** A call into a [visit*Path] handler or [normalizePropsUsage]. *)
Definition is_handler_event (e : Event) : bool :=
  match e with
  | EvNormalizePropsUsage _ | EvVisitClassNamesPath _ | EvVisitCssMapPath _
  | EvVisitCssPropPath _ | EvVisitStyledPath _ | EvVisitXcssPropPath _ => true
  | _ => false
  end.

(** The world the css-prop test of [JSXOpeningElement] reads. *)
Definition after_xcss_handler (p : NodePath) (w : World) : Tree * State :=
  if usesXcss (state w)
  then visitXcssPropPath p (tree w, state w)
  else (tree w, state w).

(** The cleanup loop on a tree: the actions it applies, front to back,
    up to the first Babel call that throws. *)
Fixpoint applied (q : list Cleanup) (t : Tree) : list Cleanup :=
  match q with
  | [] => []
  | c :: rest =>
      match apply_cleanup t c with
      | Some t' => c :: applied rest t'
      | None => []
      end
  end.

(** The tree it leaves. *)
Fixpoint cleaned_tree (q : list Cleanup) (t : Tree) : Tree :=
  match q with
  | [] => t
  | c :: rest =>
      match apply_cleanup t c with
      | Some t' => cleaned_tree rest t'
      | None => t
      end
  end.

(** Whether one of its calls throws. *)
Fixpoint cleanup_throws (q : list Cleanup) (t : Tree) : bool :=
  match q with
  | [] => false
  | c :: rest =>
      match apply_cleanup t c with
      | Some t' => cleanup_throws rest t'
      | None => true
      end
  end.

(** Every action of the queue applied in queue order, when none throws. *)
Definition apply_all (q : list Cleanup) (t : Tree) : option Tree :=
  fold_left
    (fun acc c =>
       match acc with
       | Some t' => apply_cleanup t' c
       | None => None
       end)
    q (Some t).

(** What a finalization that runs emits before the cleanup loop. *)
Definition prologue_events (w : World) : list Event :=
  [EvPreserveLeadingComments; EvAppendRuntimeImports]
  ++ React_import_events w
  ++ forwardRef_import_events w
  ++ [EvAddComment (provenance (state w)); EvUnshiftContainer Noop]
  ++ included_files_events (state w).

(** The tree the cleanup loop starts on. *)
Definition tree_before_cleanup (w : World) : Tree :=
  fold_left (replay (state w)) (prologue_events w) (tree w).


End FurtherVocabulary.

(** Further sample inputs. *)

(** [import { ClassNames as CN, css } from '@compiled/react']. *)
Definition class_names_import : ImportDeclarationNode :=
  {| source := DEFAULT_IMPORT_SOURCE;
     specifiers := [ImportSpecifier (Identifier (js "ClassNames")) (js "CN");
                    ImportSpecifier (Identifier (js "css")) (js "css")] |}.

(** [import '@compiled/react']. *)
Definition side_effect_import : ImportDeclarationNode :=
  {| source := DEFAULT_IMPORT_SOURCE; specifiers := [] |}.

(** A file under the [jsxImportSource] pragma. *)
Definition source_pragma_pass : State :=
  sample_state sample_opts (Some "/repo/src/app.tsx"%string)
    ["* @jsxImportSource @compiled/react "%string] EmptyString.

(** A file that uses [xcss] with the scan switched off. *)
Definition unscanned_opts : Opts.t :=
  {| Opts.cache := None; Opts.importSources := None;
     Opts.resolver := None; Opts.onIncludedFiles := None;
     Opts.importReact := None; Opts.processXcss := Some false |}.

Definition unscanned_pass : State :=
  sample_state unscanned_opts (Some "/repo/src/app.tsx"%string) []
    "<Box xcss={styles} />".

(** Origins given one as a package name, one relatively. *)
Definition two_origins_opts : Opts.t :=
  {| Opts.cache := None;
     Opts.importSources := Some [js "@af/compiled"; js "./theme"];
     Opts.resolver := None; Opts.onIncludedFiles := None;
     Opts.importReact := None; Opts.processXcss := None |}.

(** A resolver given as a module specifier. *)
Definition module_resolver_opts : Opts.t :=
  {| Opts.cache := Some true; Opts.importSources := None;
     Opts.resolver := Some (ResolverModule (js "./resolver"));
     Opts.onIncludedFiles := None;
     Opts.importReact := None; Opts.processXcss := None |}.

(** A host on which no resolver module can be loaded. *)
Definition failing_host : Host :=
  {| packageJson_name := js "@compiled/babel-plugin";
     packageJson_version := js "0.0.0";
     env_TEST_PKG_VERSION := Some (js "1.2.3");
     require_resolver := fun _ _ => None |}.

(** A pass with included files and a callback, ready to be finalised. *)
Definition callback_opts : Opts.t :=
  {| Opts.cache := None; Opts.importSources := None;
     Opts.resolver := None; Opts.onIncludedFiles := Some 7;
     Opts.importReact := None; Opts.processXcss := None |}.

Definition with_includedFiles (l : list jsstring) (s : State) : State :=
  {| opts := opts s; cwd := cwd s; filename := filename s; file := file s;
     sheets := sheets s; cssMap := cssMap s; cache := cache s;
     includedFiles := l; pathsToCleanup := pathsToCleanup s;
     pragma := pragma s; usesXcss := usesXcss s;
     importSources := importSources s; resolver := resolver s;
     transformCache := transformCache s;
     compiledImports := compiledImports s |}.

Definition callback_world : World :=
  sample_world api_statements
    (with_includedFiles [js "/repo/a.ts"; js "/repo/b.ts"; js "/repo/a.ts"]
       (fst (ImportDeclaration api_import
               (enter (sample_state callback_opts None [] EmptyString))))).

(** A world whose pass uses [xcss] and nothing else. *)
Definition xcss_world : World := sample_world api_statements (enter xcss_pass).

Definition two_origins_pass : State :=
  sample_state two_origins_opts None [] EmptyString.

Definition class_names_world : World :=
  sample_world api_statements
    (fst (ImportDeclaration class_names_import (enter app_pass))).

Definition source_pragma_world : World :=
  sample_world api_statements (enter source_pragma_pass).

(** Two passes that differ at most in [pathsToCleanup]. *)
Definition same_but_queue (s s' : State) : Prop :=
  opts s' = opts s /\ cwd s' = cwd s /\ filename s' = filename s
  /\ file s' = file s /\ sheets s' = sheets s /\ cssMap s' = cssMap s
  /\ cache s' = cache s /\ includedFiles s' = includedFiles s
  /\ pragma s' = pragma s /\ usesXcss s' = usesXcss s
  /\ importSources s' = importSources s /\ resolver s' = resolver s
  /\ transformCache s' = transformCache s
  /\ compiledImports s' = compiledImports s.

(** Three nodes in the order 1, 2, 3 of the program, queued in the order
    3, 1, 2 with both kinds of action. *)
Definition mixed_statements : list Sample.Statement :=
  [Sample.ExpressionStatement 1 (Sample.CallExpression (Sample.Name (js "css")));
   Sample.ExpressionStatement 2
     (Sample.TaggedTemplateExpression (Sample.Member (js "s") (js "div")));
   Sample.ExpressionStatement 3 (Sample.CallExpression (Sample.Name (js "css")))].

Definition mixed_queue : list Cleanup :=
  [ {| path := 3; action := replace |};
    {| path := 1; action := remove |};
    {| path := 2; action := replace |} ].

Definition mixed_world : World :=
  sample_world mixed_statements (set_pathsToCleanup mixed_queue api_pass).

(** A queue that replaces a node it has removed. *)
Definition removed_twice_queue : list Cleanup :=
  [ {| path := 1; action := remove |};
    {| path := 1; action := replace |};
    {| path := 2; action := replace |} ].

Definition removed_twice_world : World :=
  sample_world mixed_statements (set_pathsToCleanup removed_twice_queue api_pass).


(** [import { keyframes as kf, css, styled as s, cssMap } from
    '@compiled/react'], then one construct of each kind. *)
Definition every_api_import : ImportDeclarationNode :=
  {| source := DEFAULT_IMPORT_SOURCE;
     specifiers := [ImportSpecifier (Identifier (js "keyframes")) (js "kf");
                    ImportSpecifier (Identifier (js "css")) (js "css");
                    ImportSpecifier (Identifier (js "styled")) (js "s");
                    ImportSpecifier (Identifier (js "cssMap")) (js "cssMap")] |}.

Definition every_api_statements : list Sample.Statement :=
  [Sample.ExpressionStatement 1
     (Sample.TaggedTemplateExpression (Sample.Name (js "kf")));
   Sample.ExpressionStatement 2 (Sample.CallExpression (Sample.Name (js "css")));
   Sample.ExpressionStatement 3
     (Sample.TaggedTemplateExpression (Sample.Member (js "s") (js "div")));
   Sample.ExpressionStatement 4 (Sample.CallExpression (Sample.Name (js "other")));
   Sample.ExpressionStatement 5 (Sample.CallExpression (Sample.Name (js "cssMap")));
   Sample.ExpressionStatement 6 (Sample.CallExpression (Sample.Name (js "kf")))].

Definition every_api_world : World :=
  sample_world every_api_statements
    (fst (ImportDeclaration every_api_import (enter app_pass))).

(* ================================================================== *)
(** ** Basic facts *)

Lemma eqb_refl (a : jsstring) : JsString.eqb a a = true.
Proof.
  induction a as [|x a IH]; simpl; [reflexivity|].
  now rewrite N.eqb_refl, IH.
Qed.

Lemma eqb_eq (a b : jsstring) : JsString.eqb a b = true <-> a = b.
Proof.
  split.
  - revert b; induction a as [|x a IH]; intros [|y b]; simpl; try congruence.
    intros E. apply andb_prop in E as [E1 E2].
    apply N.eqb_eq in E1. apply IH in E2. congruence.
  - intros ->. apply eqb_refl.
Qed.

Lemma eqb_neq (a b : jsstring) : JsString.eqb a b = false <-> a <> b.
Proof.
  split.
  - intros E F. apply eqb_eq in F. congruence.
  - intros F. destruct (JsString.eqb a b) eqn:E; [|reflexivity].
    apply eqb_eq in E. contradiction.
Qed.

Lemma startsWith_app (p r : jsstring) : JsString.startsWith (p ++ r) p = true.
Proof.
  induction p as [|x p IH]; simpl; [now destruct r|].
  now rewrite N.eqb_refl, IH.
Qed.

Lemma skipn_length_app {A} (l evs : list A) :
  skipn (List.length l) (l ++ evs) = evs.
Proof.
  induction l as [|x l IH]; simpl; [reflexivity | exact IH].
Qed.

Lemma set_compiledImports_same (s : State) (c : option CompiledImports.t) :
  compiledImports s = c -> set_compiledImports c s = s.
Proof.
  intros <-. destruct s; reflexivity.
Qed.

Lemma set_compiledImports_twice (s : State) (c d : option CompiledImports.t) :
  set_compiledImports d (set_compiledImports c s) = set_compiledImports d s.
Proof.
  reflexivity.
Qed.

(* ================================================================== *)
(** ** The visitors *)

Section Theorems.

Context {PM : PathModule} {HO : Host} {B : Babel} {H : Handlers}.

Lemma world_eta (w : World) :
  {| tree := tree w; state := state w; log := log w |} = w.
Proof.
  destruct w; reflexivity.
Qed.

Lemma emitted_of_log (m : M unit) (w : World) (evs : list Event) :
  log (run m w) = log w ++ evs -> emitted m w = evs.
Proof.
  unfold emitted. intros ->. apply skipn_length_app.
Qed.

Lemma clean_path_run (c : Cleanup) (w : World) :
  clean_path c w
  = match apply_cleanup (tree w) c with
    | Some t' =>
        (Some tt, {| tree := t'; state := state w;
                     log := log w ++ [cleanup_event c] |})
    | None => (None, w)
    end.
Proof.
  unfold clean_path, apply_cleanup, cleanup_event, attempt.
  now destruct (action c).
Qed.

(** The cleanup loop applies the queue front to back and stops at the
    first call that throws. *)
Lemma forEach_clean_path (q : list Cleanup) :
  forall w : World,
    forEach clean_path q w
    = (if cleanup_throws q (tree w) then None else Some tt,
       {| tree := cleaned_tree q (tree w);
          state := state w;
          log := log w ++ map cleanup_event (applied q (tree w)) |}).
Proof.
  induction q as [|c q IH]; intros w; cbn [forEach cleanup_throws cleaned_tree applied].
  - unfold ret. simpl. now rewrite app_nil_r, world_eta.
  - unfold bind. rewrite clean_path_run.
    destruct (apply_cleanup (tree w) c) as [t'|].
    + rewrite IH. simpl. now rewrite <- app_assoc.
    + simpl. now rewrite app_nil_r, world_eta.
Qed.

(** C1. When no recognised import was recorded ([compiledImports] is
    absent) and [usesXcss] is false, [Program.exit] returns at its guard:
    the tree is the input tree, the state is untouched and no call is made
    (no runtime imports, no framework or helper import, no provenance
    comment, no cleanup, no [onIncludedFiles]). *)
Theorem C1_exit_without_imports_or_xcss_is_a_noop (w : World) :
  compiledImports (state w) = None ->
  usesXcss (state w) = false ->
  run exit w = w
  /\ tree (run exit w) = tree w
  /\ emitted exit w = [].
Proof.
  intros Hc Hx.
  assert (E : run exit w = w).
  { unfold run, exit, bind, get_state, nothing_to_do.
    rewrite Hc, Hx. reflexivity. }
  split; [exact E|]. split; [now rewrite E|].
  apply emitted_of_log. rewrite E. now rewrite app_nil_r.
Qed.

(** The call visitor, branch by branch. *)
Lemma call_visitor_run (p : NodePath) (w : World) :
  let s := state w in
  let n := path_node p (tree w) in
  let n' := path_node p (normalized p w) in
  run (TaggedTemplateExpression_CallExpression p) w
  = if isCompiledCSSMapCallExpression n s
    then {| tree := fst (visitCssMapPath p (tree w, s));
            state := snd (visitCssMapPath p (tree w, s));
            log := log w ++ [EvVisitCssMapPath p] |}
    else if isCompiledUtil n' s
    then {| tree := normalized p w;
            state := set_pathsToCleanup
                       (pathsToCleanup s ++ [{| path := p; action := replace |}]) s;
            log := log w ++ normalization_events p w |}
    else if isCompiledComponent n' s
    then {| tree := fst (visitStyledPath p (normalized p w, s));
            state := snd (visitStyledPath p (normalized p w, s));
            log := log w ++ normalization_events p w ++ [EvVisitStyledPath p] |}
    else {| tree := normalized p w; state := s;
            log := log w ++ normalization_events p w |}.
Proof.
  intros s n n'. subst s n n'.
  unfold TaggedTemplateExpression_CallExpression, run, normalized,
    normalization_events.
  unfold bind at 1. unfold get_state at 1.
  unfold bind at 1. unfold inspect at 1.
  destruct (isCompiledCSSMapCallExpression (path_node p (tree w)) (state w)).
  - unfold delegate. now destruct (visitCssMapPath p (tree w, state w)).
  - unfold bind at 1.
    destruct (hasStyles (path_node p (tree w)) (state w)); simpl;
      unfold bind at 1; unfold inspect at 1; simpl;
      match goal with
      | |- context [isCompiledUtil ?a ?b] => destruct (isCompiledUtil a b)
      end;
      try (unfold push_cleanup, bind, get_state, put_state; simpl;
           rewrite ?app_nil_r; reflexivity);
      match goal with
      | |- context [isCompiledComponent ?a ?b] =>
          destruct (isCompiledComponent a b)
      end;
      unfold delegate, ret; simpl;
      try match goal with
      | |- context [visitStyledPath ?a ?b] => destruct (visitStyledPath a b)
      end;
      simpl; rewrite <- ?app_assoc, ?app_nil_r; simpl;
      rewrite ?world_eta; reflexivity.
Qed.

Lemma exit_at_guard (w : World) :
  nothing_to_do (state w) = true -> run exit w = w.
Proof.
  intros G. unfold run, exit, bind, get_state. now rewrite G.
Qed.

(** [pre] stores the default origin followed by the configured origins,
    qualified against the root, and does not touch the filename. *)
Lemma pre_importSources (o : Opts.t) (cwd_ : jsstring) (fn : option jsstring)
    (f : File) (g : Globals) (s0 : State) :
  snd (pre o cwd_ fn f g) = Some s0 ->
  importSources s0
  = DEFAULT_IMPORT_SOURCE :: configured_origins o (rootPath_of f cwd_)
  /\ filename s0 = fn.
Proof.
  unfold pre, configured_origins, rootPath_of.
  destruct (select_cache o g) as [c g'].
  destruct (Opts.resolver o) as [[r | specifier]|]; simpl.
  - intros [= <-]. now split.
  - destruct (require_resolver _ _); simpl; [|discriminate].
    intros [= <-]. now split.
  - intros [= <-]. now split.
Qed.

Lemma absolute_is_not_relative (q : jsstring) :
  isAbsolute q = true -> JsString.firstIs DOT q = false.
Proof.
  unfold isAbsolute, JsString.firstIs. destruct q as [|c q]; [discriminate|].
  intros E. apply N.eqb_eq in E. now subst c.
Qed.

(** Recognition against a list of origins that starts with the default
    one. *)
Lemma isCompiledModule_spec (s : State) (configured : list jsstring) (u : jsstring) :
  resolve_is_absolute ->
  importSources s = DEFAULT_IMPORT_SOURCE :: configured ->
  (isCompiledModule s u = true <-> Recognized configured (filename s) u).
Proof.
  intros Habs Hsrc. unfold isCompiledModule, Recognized. rewrite Hsrc.
  split.
  - intros E. apply existsb_exists in E as (origin & Hin & E).
    unfold origin_matches in E.
    destruct (JsString.eqb u DEFAULT_IMPORT_SOURCE) eqn:E1.
    { left. now apply eqb_eq. }
    destruct (JsString.eqb origin u) eqn:E2.
    { apply eqb_eq in E2. subst origin. destruct Hin as [Hd | Hin].
      - left. congruence.
      - right. now left. }
    simpl in E. destruct (filename s) as [fn|]; [|discriminate].
    destruct (JsString.truthy fn) eqn:T; [|discriminate].
    destruct (JsString.firstIs DOT u) eqn:R; [|discriminate].
    destruct (JsString.endsWith u (basename origin)) eqn:S; [|discriminate].
    simpl in E. apply eqb_eq in E.
    destruct Hin as [Hd | Hin].
    { exfalso. specialize (Habs (dirname fn) u). rewrite E, <- Hd in Habs.
      discriminate. }
    right. right. split; [reflexivity|].
    exists fn, origin. repeat split; auto.
    intros ->. discriminate.
  - intros [Hd | [Hin | (R & fn & origin & Hfn & Hne & Hin & S & E)]].
    + subst u. reflexivity.
    + apply existsb_exists. exists u. split; [now right|].
      unfold origin_matches. rewrite (eqb_refl u). now rewrite orb_true_r.
    + apply existsb_exists. exists origin. split; [now right|].
      unfold origin_matches. rewrite Hfn, R, S.
      destruct fn as [|c fn]; [contradiction|]. simpl.
      apply eqb_eq in E. rewrite E.
      now destruct (JsString.eqb u DEFAULT_IMPORT_SOURCE || JsString.eqb origin u).
Qed.

(** The visitor reads the module specifier through [isCompiledModule]
    only. *)
Lemma ImportDeclaration_by_recognition (s : State) (u v : jsstring)
    (specs : list ImportSpecifierNode) :
  isCompiledModule s u = isCompiledModule s v ->
  fst (ImportDeclaration {| source := u; specifiers := specs |} s)
  = fst (ImportDeclaration {| source := v; specifiers := specs |} s)
  /\ option_map specifiers
       (snd (ImportDeclaration {| source := u; specifiers := specs |} s))
     = option_map specifiers
         (snd (ImportDeclaration {| source := v; specifiers := specs |} s)).
Proof.
  intros E. unfold ImportDeclaration. simpl. rewrite E.
  destruct (isCompiledModule s v); simpl; [|now split].
  destruct (visit_specifiers _ specs) as [s2 kept].
  now destruct kept.
Qed.

(** C3. On a pass built by [pre], a module specifier is recognised if
    and only if it is the default origin, or one of the configured origins
    (as [pre] qualified them) exactly, or it is relative, ends with the
    basename of a configured origin and resolves against the directory of
    the importing file to that origin.  A relative specifier of the last
    kind is recognised as the origin itself is, and the visitor then treats
    a declaration importing the one as a declaration importing the
    other. *)
Theorem C3_module_recognition
    (o : Opts.t) (cwd_ : jsstring) (fn : option jsstring) (f : File)
    (g : Globals) (s0 s : State) (u : jsstring) :
  resolve_is_absolute ->
  snd (pre o cwd_ fn f g) = Some s0 ->
  importSources s = importSources s0 ->
  filename s = fn ->
  (isCompiledModule s u = true
   <-> Recognized (configured_origins o (rootPath_of f cwd_)) fn u)
  /\ (forall (origin importing_file : jsstring) (specs : list ImportSpecifierNode),
        In origin (configured_origins o (rootPath_of f cwd_)) ->
        fn = Some importing_file ->
        importing_file <> [] ->
        JsString.firstIs DOT u = true ->
        JsString.endsWith u (basename origin) = true ->
        resolve (dirname importing_file) u = origin ->
          isCompiledModule s u = true
          /\ isCompiledModule s origin = true
          /\ fst (ImportDeclaration {| source := u; specifiers := specs |} s)
             = fst (ImportDeclaration {| source := origin; specifiers := specs |} s)
          /\ option_map specifiers
               (snd (ImportDeclaration {| source := u; specifiers := specs |} s))
             = option_map specifiers
                 (snd (ImportDeclaration {| source := origin; specifiers := specs |} s))).
Proof.
  intros Habs Hpre Hsrc Hfn.
  apply pre_importSources in Hpre as [Hsrc0 _]. rewrite Hsrc0 in Hsrc.
  pose proof (isCompiledModule_spec s) as Spec. rewrite Hfn in Spec.
  split; [now apply Spec|].
  intros origin file specs Hin Hfile Hne R S E.
  assert (Ru : isCompiledModule s u = true).
  { apply (Spec _ u Habs Hsrc). right. right. split; [exact R|].
    exists file, origin. repeat split; auto. }
  assert (Ro : isCompiledModule s origin = true).
  { apply (Spec _ origin Habs Hsrc). right. now left. }
  split; [exact Ru|]. split; [exact Ro|].
  apply ImportDeclaration_by_recognition. congruence.
Qed.

Lemma configured_origins_not_relative (o : Opts.t) (root origin : jsstring) :
  join_keeps_absolute ->
  isAbsolute root = true ->
  In origin (configured_origins o root) ->
  JsString.firstIs DOT origin = false.
Proof.
  intros Hjoin Hroot. unfold configured_origins.
  destruct (Opts.importSources o) as [origins|]; [|contradiction].
  intros Hin. apply in_map_iff in Hin as (x & <- & _).
  unfold qualify_origin. destruct (JsString.firstIs DOT x) eqn:R; [|exact R].
  apply absolute_is_not_relative. now apply Hjoin.
Qed.

(** C10.  On a pass without a filename ([undefined], or the empty
    string), the relative resolution is never tried: a module specifier is
    recognised if and only if it is the default origin or exactly one of
    the configured origins as [pre] stored them.  The root is absolute (it
    is [file.opts.root], which Babel resolves, or the working directory), so
    no stored origin is spelled relatively and a specifier starting with [.]
    is never recognised, whatever origins are configured. *)
Theorem C10_no_filename_no_relative_recognition
    (o : Opts.t) (cwd_ : jsstring) (fn : option jsstring) (f : File)
    (g : Globals) (s0 s : State) (u : jsstring) :
  join_keeps_absolute ->
  snd (pre o cwd_ fn f g) = Some s0 ->
  importSources s = importSources s0 ->
  filename s = None \/ filename s = Some [] ->
  (isCompiledModule s u = true
   <-> u = DEFAULT_IMPORT_SOURCE
       \/ In u (configured_origins o (rootPath_of f cwd_)))
  /\ (isAbsolute (rootPath_of f cwd_) = true ->
      JsString.firstIs DOT u = true ->
      isCompiledModule s u = false).
Proof.
  intros Hjoin Hpre Hsrc Hfn.
  apply pre_importSources in Hpre as [Hsrc0 _]. rewrite Hsrc0 in Hsrc.
  assert (Exact : isCompiledModule s u = true
                  <-> u = DEFAULT_IMPORT_SOURCE
                      \/ In u (configured_origins o (rootPath_of f cwd_))).
  { unfold isCompiledModule. rewrite Hsrc. split.
    - intros E. apply existsb_exists in E as (origin & Hin & E).
      unfold origin_matches in E.
      destruct (JsString.eqb u DEFAULT_IMPORT_SOURCE) eqn:E1.
      { left. now apply eqb_eq. }
      destruct (JsString.eqb origin u) eqn:E2.
      { apply eqb_eq in E2. subst origin. destruct Hin as [Hd | Hin].
        - left. congruence.
        - now right. }
      simpl in E. destruct Hfn as [Hfn | Hfn]; rewrite Hfn in E; discriminate.
    - intros [Hd | Hin].
      + subst u. reflexivity.
      + apply existsb_exists. exists u. split; [now right|].
        unfold origin_matches. rewrite (eqb_refl u). now rewrite orb_true_r. }
  split; [exact Exact|].
  intros Hroot R.
  apply not_true_is_false. intros E.
  apply Exact in E as [Hd | Hin].
  - subst u. discriminate.
  - apply (configured_origins_not_relative _ _ _ Hjoin Hroot) in Hin. congruence.
Qed.

End Theorems.

(* ================================================================== *)
(** ** [ImportDeclaration]: what is recorded and what is removed *)

Lemma api_of_apiName (a : ApiName) : api_of_name (apiName_string a) = Some a.
Proof.
  now destruct a.
Qed.

Lemma get_set_same (a : ApiName) (l : jsstring) (r : CompiledImports.t) :
  CompiledImports.get a (CompiledImports.set a l r) = Some l.
Proof.
  now destruct a.
Qed.

Lemma get_set_other (a b : ApiName) (l : jsstring) (r : CompiledImports.t) :
  a <> b ->
  CompiledImports.get a (CompiledImports.set b l r) = CompiledImports.get a r.
Proof.
  destruct a, b; intros N; try reflexivity; contradiction.
Qed.

(** Once removed, a specifier matches no further API name. *)
Lemma enable_api_removed (l : list ApiName) (s : State) :
  fold_left enable_api l (s, None) = (s, None).
Proof.
  induction l as [|a l IH]; cbn [fold_left]; [reflexivity|].
  assert (E : enable_api (s, None) a = (s, None)).
  { unfold enable_api. now destruct (compiledImports s). }
  now rewrite E.
Qed.

Lemma enable_api_string_literal (l : list ApiName) (s : State)
    (text local : jsstring) :
  fold_left enable_api l (s, Some (ImportSpecifier (StringLiteral text) local))
  = (s, Some (ImportSpecifier (StringLiteral text) local)).
Proof.
  induction l as [|a l IH]; cbn [fold_left]; [reflexivity|].
  assert (E : enable_api (s, Some (ImportSpecifier (StringLiteral text) local)) a
              = (s, Some (ImportSpecifier (StringLiteral text) local))).
  { unfold enable_api. now destruct (compiledImports s). }
  now rewrite E.
Qed.

Lemma enable_api_identifier (l : list ApiName) (s : State) (r : CompiledImports.t)
    (name local : jsstring) :
  compiledImports s = Some r ->
  fold_left enable_api l (s, Some (ImportSpecifier (Identifier name) local))
  = match find (fun a => JsString.eqb name (apiName_string a)) l with
    | Some a => (set_compiledImports (Some (CompiledImports.set a local r)) s, None)
    | None => (s, Some (ImportSpecifier (Identifier name) local))
    end.
Proof.
  intros Hr. induction l as [|a l IH]; cbn [fold_left find]; [reflexivity|].
  unfold enable_api at 2. rewrite Hr.
  destruct (JsString.eqb name (apiName_string a)).
  - apply enable_api_removed.
  - exact IH.
Qed.

Lemma visit_specifier_spec (s : State) (r : CompiledImports.t)
    (sp : ImportSpecifierNode) :
  compiledImports s = Some r ->
  visit_specifier s sp
  = if enables_api sp
    then (set_compiledImports (Some (record_specifier r sp)) s, None)
    else (s, Some sp).
Proof.
  intros Hr. unfold visit_specifier, enables_api, record_specifier. rewrite Hr.
  destruct sp as [[name | text] local | local | local]; try reflexivity.
  - rewrite (enable_api_identifier _ _ _ _ _ Hr).
    cbn [api_of_specifier local_of]. unfold api_of_name.
    now destruct (find _ apiNames).
  - apply enable_api_string_literal.
Qed.

Lemma visit_specifiers_spec (l : list ImportSpecifierNode) :
  forall (s : State) (r : CompiledImports.t),
    compiledImports s = Some r ->
    visit_specifiers s l
    = (set_compiledImports (Some (fold_left record_specifier l r)) s,
       filter (fun sp => negb (enables_api sp)) l).
Proof.
  induction l as [|sp l IH]; intros s r Hr; cbn [visit_specifiers fold_left filter].
  - now rewrite set_compiledImports_same.
  - rewrite (visit_specifier_spec _ _ _ Hr).
    destruct (enables_api sp) eqn:E; cbn [negb].
    + now rewrite (IH (set_compiledImports (Some (record_specifier r sp)) s)
                     (record_specifier r sp) eq_refl).
    + rewrite (IH _ r Hr).
      unfold record_specifier, enables_api in *.
      now destruct (api_of_specifier sp).
Qed.

Lemma record_specifier_keeps (a : ApiName) (l : list ImportSpecifierNode) :
  forall r : CompiledImports.t,
    (forall sp, In sp l -> api_of_specifier sp <> Some a) ->
    CompiledImports.get a (fold_left record_specifier l r) = CompiledImports.get a r.
Proof.
  induction l as [|sp l IH]; intros r Hno; simpl; [reflexivity|].
  rewrite IH by (intros sp' Hin; apply Hno; now right).
  unfold record_specifier. destruct (api_of_specifier sp) as [b|] eqn:E; [|reflexivity].
  apply get_set_other. intros ->. apply (Hno sp); [now left | exact E].
Qed.

Section ImportDeclarationTheorems.

Context {PM : PathModule}.

(** C4, as amended.  An unrecognised declaration is left as it is, and
    so is the state.  For a recognised one the record exists afterwards;
    it is the former record (or the empty one) with [{apiName -> local}]
    written for every named specifier whose imported name is an
    identifier and one of the five API names, in order; exactly those
    specifiers are removed, a specifier that names the API by a string
    literal stays; and the declaration is removed if and only if no
    specifier is left. *)
Theorem C4_recognised_import_is_recorded_and_stripped
    (node : ImportDeclarationNode) (s : State) :
  (isCompiledModule s (source node) = false ->
     ImportDeclaration node s = (s, Some node))
  /\ (isCompiledModule s (source node) = true ->
      let record0 :=
        match compiledImports s with
        | Some r => r
        | None => CompiledImports.empty
        end in
      let record := fold_left record_specifier (specifiers node) record0 in
      let kept := filter (fun sp => negb (enables_api sp)) (specifiers node) in
      fst (ImportDeclaration node s) = set_compiledImports (Some record) s
      /\ (forall a local before after,
            specifiers node
            = before ++ ImportSpecifier (Identifier (apiName_string a)) local :: after ->
            (forall sp, In sp after -> api_of_specifier sp <> Some a) ->
            CompiledImports.get a record = Some local)
      /\ (forall sp, In sp (specifiers node) -> enables_api sp = true -> ~ In sp kept)
      /\ (forall sp, In sp (specifiers node) -> enables_api sp = false -> In sp kept)
      /\ (forall text local,
            In (ImportSpecifier (StringLiteral text) local) (specifiers node) ->
            In (ImportSpecifier (StringLiteral text) local) kept)
      /\ (kept = [] -> snd (ImportDeclaration node s) = None)
      /\ (kept <> [] ->
          snd (ImportDeclaration node s)
          = Some {| source := source node; specifiers := kept |})).
Proof.
  split.
  - intros E. unfold ImportDeclaration. now rewrite E.
  - intros E record0 record kept.
    assert (R : ImportDeclaration node s
                = (set_compiledImports (Some record) s,
                   match kept with
                   | [] => None
                   | _ :: _ => Some {| source := source node; specifiers := kept |}
                   end)).
    { unfold ImportDeclaration. rewrite E. simpl.
      rewrite visit_specifiers_spec with (r := record0) by reflexivity.
      fold record kept. now destruct kept. }
    rewrite R. simpl. repeat split.
    + intros a local before after Hsplit Hlast. subst record. rewrite Hsplit.
      rewrite fold_left_app. simpl.
      rewrite record_specifier_keeps by exact Hlast.
      unfold record_specifier. simpl. rewrite api_of_apiName. apply get_set_same.
    + intros sp _ Hen Hin. apply filter_In in Hin as [_ Hin].
      rewrite Hen in Hin. discriminate.
    + intros sp Hin Hen. apply filter_In. split; [exact Hin|]. now rewrite Hen.
    + intros text local Hin. apply filter_In. now split.
    + now intros ->.
    + intros Hne. now destruct kept.
Qed.

End ImportDeclarationTheorems.

(* ================================================================== *)
(** ** [Program.enter]: the pragma and the [xcss] scan *)

Lemma enter_comment_frame (s : State) (c : Comment) :
  opts (enter_comment s c) = opts s
  /\ file (enter_comment s c) = file s
  /\ usesXcss (enter_comment s c) = usesXcss s
  /\ jsx (pragma (enter_comment s c)) = jsx (pragma s) || sets_jsx_pragma c.
Proof.
  unfold enter_comment, sets_jsx_pragma.
  destruct (JSX_SOURCE_ANNOTATION_REGEX_exec (value c)) as [m|];
    [destruct (JsString.eqb m DEFAULT_IMPORT_SOURCE)|];
    (destruct (JSX_ANNOTATION_REGEX_exec (value c)) as [m'|];
     [destruct (JsString.eqb m' (js "jsx"))|]);
    simpl; rewrite ?orb_true_r, ?orb_false_r; auto.
Qed.

Lemma enter_comments_frame (cs : list Comment) :
  forall s : State,
    opts (fold_left enter_comment cs s) = opts s
    /\ file (fold_left enter_comment cs s) = file s
    /\ usesXcss (fold_left enter_comment cs s) = usesXcss s
    /\ jsx (pragma (fold_left enter_comment cs s))
       = jsx (pragma s) || existsb sets_jsx_pragma cs.
Proof.
  induction cs as [|c cs IH]; intros s; simpl.
  - now rewrite orb_false_r.
  - destruct (IH (enter_comment s c)) as (Ho & Hf & Hx & Hj).
    destruct (enter_comment_frame s c) as (Ho' & Hf' & Hx' & Hj').
    rewrite Ho, Hf, Hx, Hj, Ho', Hf', Hx', Hj'. now rewrite orb_assoc.
Qed.

Lemma enter_jsx (s : State) :
  jsx (pragma (enter s))
  = jsx (pragma s)
    || match ast_comments (file s) with
       | Some cs => existsb sets_jsx_pragma cs
       | None => false
       end.
Proof.
  unfold enter.
  assert (P : forall s1 : State,
             jsx (pragma (if match Opts.processXcss (opts s1) with
                              | Some b => b
                              | None => true
                              end && xcss_test (code (file s1))
                          then set_usesXcss true s1 else s1))
             = jsx (pragma s1)).
  { intros s1. now destruct (_ && _). }
  rewrite P. destruct (ast_comments (file s)) as [cs|].
  - apply enter_comments_frame.
  - now rewrite orb_false_r.
Qed.

(** C6, as amended.  The flag [pragma.jsx] is set when a comment of the
    file matches the generic pragma pattern and the value it captures is
    exactly [jsx]; comments whose match captures anything else leave the
    flag as it was. *)
Theorem C6_jsx_pragma_needs_the_value_jsx (s : State) (comments : list Comment) :
  ast_comments (file s) = Some comments ->
  ((exists c, In c comments /\ JSX_ANNOTATION_REGEX_exec (value c) = Some (js "jsx")) ->
     jsx (pragma (enter s)) = true)
  /\ ((forall c, In c comments ->
         JSX_ANNOTATION_REGEX_exec (value c) <> Some (js "jsx")) ->
      jsx (pragma (enter s)) = jsx (pragma s)).
Proof.
  intros Hc. rewrite enter_jsx, Hc. split.
  - intros (c & Hin & E).
    assert (X : existsb sets_jsx_pragma comments = true).
    { apply existsb_exists. exists c. split; [exact Hin|].
      unfold sets_jsx_pragma. rewrite E. apply eqb_refl. }
    rewrite X. apply orb_true_r.
  - intros Hno.
    assert (X : existsb sets_jsx_pragma comments = false).
    { apply not_true_is_false. intros X.
      apply existsb_exists in X as (c & Hin & E).
      unfold sets_jsx_pragma in E.
      destruct (JSX_ANNOTATION_REGEX_exec (value c)) as [m|] eqn:M; [|discriminate].
      apply eqb_eq in E. subst m. now apply (Hno c). }
    rewrite X. apply orb_false_r.
Qed.

Lemma startsWith_inv (p : jsstring) :
  forall s, JsString.startsWith s p = true -> exists r, s = p ++ r.
Proof.
  induction p as [|y p IH]; intros s E.
  - exists s. reflexivity.
  - destruct s as [|x s]; simpl in E; [discriminate|].
    apply andb_prop in E as [E1 E2]. apply N.eqb_eq in E1. subst y.
    destruct (IH s E2) as [r ->]. now exists r.
Qed.

(** The scan succeeds exactly on the texts that hold [xcss={] or
    [Xcss={]. *)
Lemma xcss_test_spec (text : jsstring) :
  xcss_test text = true
  <-> exists before x after,
        (x = 120%N \/ x = 88%N) /\ text = before ++ x :: js "css={" ++ after.
Proof.
  split.
  - induction text as [|c text IH]; simpl; [discriminate|].
    intros E. apply orb_prop in E as [E | E].
    + apply andb_prop in E as [Ex Es].
      apply startsWith_inv in Es as [after ->].
      exists [], c, after. split; [|reflexivity].
      apply orb_prop in Ex as [Ex | Ex]; apply N.eqb_eq in Ex; auto.
    + destruct (IH E) as (before & x & after & Hx & ->).
      now exists (c :: before), x, after.
  - intros (before & x & after & Hx & ->).
    induction before as [|c before IH].
    + cbn [app xcss_test xcss_here].
      rewrite (startsWith_app (js "css={") after).
      destruct Hx as [-> | ->]; reflexivity.
    + cbn [app xcss_test]. fold (app before (x :: js "css={" ++ after)).
      rewrite IH. apply orb_true_r.
Qed.

Lemma enter_usesXcss (s : State) :
  usesXcss (enter s)
  = usesXcss s
    || (match Opts.processXcss (opts s) with
        | Some b => b
        | None => true
        end && xcss_test (code (file s))).
Proof.
  unfold enter.
  assert (F : exists s1,
             match ast_comments (file s) with
             | Some comments => fold_left enter_comment comments s
             | None => s
             end = s1
             /\ opts s1 = opts s /\ file s1 = file s /\ usesXcss s1 = usesXcss s).
  { eexists. split; [reflexivity|].
    destruct (ast_comments (file s)) as [cs|]; [|auto].
    destruct (enter_comments_frame cs s) as (Ho & Hf & Hx & _). auto. }
  destruct F as (s1 & -> & Ho & Hf & Hx). rewrite Ho, Hf.
  destruct (_ && _); simpl.
  - now rewrite orb_true_r.
  - now rewrite Hx, orb_false_r.
Qed.

(** C7, as amended.  With [processXcss] left out or [true], the file text
    is scanned for [xcss={] with the first letter in either case and the
    rest in lower case; the flag [usesXcss] is set when the text holds
    [xcss={] or [Xcss={], and, if it was not set before, only then. *)
Theorem C7_xcss_scan_accepts_a_capital_first_letter_only (s : State) :
  Opts.processXcss (opts s) = None \/ Opts.processXcss (opts s) = Some true ->
  ((exists before x after,
      (x = 120%N \/ x = 88%N) /\ code (file s) = before ++ x :: js "css={" ++ after) ->
     usesXcss (enter s) = true)
  /\ (usesXcss s = false ->
      usesXcss (enter s) = true ->
      exists before x after,
        (x = 120%N \/ x = 88%N) /\ code (file s) = before ++ x :: js "css={" ++ after).
Proof.
  intros Hon. rewrite enter_usesXcss.
  assert (D : match Opts.processXcss (opts s) with
              | Some b => b
              | None => true
              end = true).
  { destruct Hon as [-> | ->]; reflexivity. }
  rewrite D. simpl. split.
  - intros Hx. apply xcss_test_spec in Hx. rewrite Hx. apply orb_true_r.
  - intros -> E. simpl in E. now apply xcss_test_spec.
Qed.

(* ================================================================== *)
(** ** [pre]: the cache of a pass *)

Lemma update_cell_length (f : CacheObject -> CacheObject) (h : list CacheObject) :
  forall i, List.length (update_cell i f h) = List.length h.
Proof.
  induction h as [|x h IH]; intros [|i]; simpl; auto.
Qed.

Section PreTheorems.

Context {PM : PathModule} {HO : Host}.

(** Whatever the option, [pre] constructs a new instance. *)
Lemma select_cache_fresh (o : Opts.t) (g : Globals) :
  fst (select_cache o g) = List.length (heap g)
  /\ List.length (heap (snd (select_cache o g))) = S (List.length (heap g))
  /\ (Opts.cache o = Some true ->
      globalCache (snd (select_cache o g)) = Some (List.length (heap g)))
  /\ (Opts.cache o <> Some true ->
      globalCache (snd (select_cache o g)) = globalCache g).
Proof.
  unfold select_cache.
  destruct (Opts.cache o) as [[|]|]; simpl;
    rewrite update_cell_length, length_app; simpl;
    repeat split; try congruence; try lia.
Qed.

Lemma pre_cache (o : Opts.t) (cwd_ : jsstring) (fn : option jsstring)
    (f : File) (g : Globals) (s : State) :
  snd (pre o cwd_ fn f g) = Some s ->
  cache s = fst (select_cache o g)
  /\ fst (pre o cwd_ fn f g) = snd (select_cache o g).
Proof.
  unfold pre. destruct (select_cache o g) as [c g'].
  destruct (Opts.resolver o) as [[r | specifier]|]; simpl.
  - intros [= <-]. now split.
  - destruct (require_resolver _ _); simpl; [|discriminate].
    intros [= <-]. now split.
  - intros [= <-]. now split.
Qed.

(** C8, on the code.  Two compilations in sequence never hold the same
    [Cache] instance, with the [cache] option off and with it on: [pre]
    always constructs a new instance, and with [cache: true] it also
    overwrites [globalCache] with it. *)
Theorem C8_every_pass_gets_a_new_cache
    (o1 o2 : Opts.t) (cwd1 cwd2 : jsstring) (fn1 fn2 : option jsstring)
    (f1 f2 : File) (g : Globals) (s1 s2 : State) :
  snd (pre o1 cwd1 fn1 f1 g) = Some s1 ->
  snd (pre o2 cwd2 fn2 f2 (fst (pre o1 cwd1 fn1 f1 g))) = Some s2 ->
  cache s1 <> cache s2
  /\ (Opts.cache o2 = Some true ->
      globalCache (fst (pre o2 cwd2 fn2 f2 (fst (pre o1 cwd1 fn1 f1 g))))
      = Some (cache s2)).
Proof.
  intros H1 H2.
  apply pre_cache in H1 as [C1 G1]. rewrite G1 in H2 |- *.
  apply pre_cache in H2 as [C2 G2]. rewrite G2, C1, C2.
  destruct (select_cache_fresh o1 g) as (F1 & L1 & _).
  destruct (select_cache_fresh o2 (snd (select_cache o1 g))) as (F2 & _ & Gl & _).
  rewrite F1, F2, L1. split; [lia|].
  intros Hon. rewrite (Gl Hon). now rewrite L1.
Qed.

End PreTheorems.

(* ================================================================== *)
(** ** The POSIX instance satisfies the assumptions on [path] *)

Lemma posix_resolve_is_absolute : resolve_is_absolute.
Proof.
  intros from to. unfold resolve; simpl. unfold Posix.resolve.
  destruct (isAbsolute to); [reflexivity|].
  now destruct (isAbsolute from).
Qed.

Lemma posix_normalize_absolute (p : jsstring) :
  isAbsolute p = true -> isAbsolute (Posix.normalize p) = true.
Proof.
  intros A. unfold Posix.normalize. destruct p as [|c p]; [discriminate|].
  rewrite A. simpl.
  destruct (Posix.normalizeString (c :: p) false); reflexivity.
Qed.

Lemma posix_join_keeps_absolute : join_keeps_absolute.
Proof.
  intros root p A. unfold join; simpl. unfold Posix.join.
  destruct root as [|c root]; [discriminate|].
  destruct p as [|d p]; apply posix_normalize_absolute; exact A.
Qed.

(** With the sample predicates a node is an API construct only once a
    binding record exists, that is, only when [Program.exit] will run. *)
Lemma sample_constructs_need_a_record (n : Sample.Expr) (s : State) :
  compiledImports s = None ->
  isCompiledUtil n s = false
  /\ isCompiledComponent n s = false
  /\ isCompiledCSSMapCallExpression n s = false.
Proof.
  intros E.
  unfold isCompiledUtil, isCompiledComponent; simpl.
  unfold Sample.is_call, Sample.is_tagged, Sample.imported. rewrite E.
  destruct n as [[name | object property] | [name | object property] | |];
    repeat split.
Qed.

(* ================================================================== *)
(** ** The theorems on the sample inputs *)

Lemma C1_witness :
  compiledImports (state plain_world) = None
  /\ usesXcss (state plain_world) = false
  /\ run exit plain_world = plain_world
  /\ tree (run exit plain_world) = tree plain_world
  /\ emitted exit plain_world = [].
Proof.
  split; [reflexivity|]. split; [reflexivity|].
  apply C1_exit_without_imports_or_xcss_is_a_noop; reflexivity.
Defined.

Lemma C3_witness :
  isCompiledModule theme_pass (js "../theme") = true
  /\ isCompiledModule theme_pass (js "/repo/theme") = true.
Proof.
  pose proof (C3_module_recognition theme_opts (js "/repo")
                (Some (js "/repo/src/app.tsx")) empty_file no_globals
                theme_pass theme_pass (js "../theme")
                posix_resolve_is_absolute) as T.
  destruct (T eq_refl eq_refl eq_refl) as [_ Hrel].
  destruct (Hrel (js "/repo/theme") (js "/repo/src/app.tsx") []
              (or_introl eq_refl) eq_refl) as (Hu & Ho & _);
    [discriminate | reflexivity | reflexivity | reflexivity |].
  split; [exact Hu | exact Ho].
Defined.

Lemma C4_witness :
  isCompiledModule (enter app_pass) (source api_import) = true
  /\ fst (ImportDeclaration api_import (enter app_pass))
     = set_compiledImports
         (Some {| CompiledImports.styled := Some (js "s");
                  CompiledImports.ClassNames := None;
                  CompiledImports.css := Some (js "css");
                  CompiledImports.keyframes := None;
                  CompiledImports.cssMap := None |})
         (enter app_pass)
  /\ snd (ImportDeclaration api_import (enter app_pass))
     = Some {| source := DEFAULT_IMPORT_SOURCE;
               specifiers := [ImportDefaultSpecifier (js "Compiled")] |}.
Proof.
  split; [reflexivity|].
  pose proof (proj2 (C4_recognised_import_is_recorded_and_stripped
                       api_import (enter app_pass))) as T.
  destruct (T eq_refl) as (Hrecord & _ & _ & _ & _ & _ & Hkept).
  split; [exact Hrecord|]. apply Hkept. discriminate.
Defined.

Lemma C6_witness :
  JSX_ANNOTATION_REGEX_exec (js "* @jsx jsx ") = Some (js "jsx")
  /\ jsx (pragma (enter jsx_pragma_pass)) = true.
Proof.
  split; [reflexivity|].
  pose proof (C6_jsx_pragma_needs_the_value_jsx jsx_pragma_pass
                [{| value := js "* @jsx jsx " |}]) as T.
  apply (proj1 (T eq_refl)).
  exists {| value := js "* @jsx jsx " |}. split; [now left | reflexivity].
Defined.

Lemma C7_witness :
  Opts.processXcss (opts xcss_pass) = None
  /\ usesXcss (enter xcss_pass) = true.
Proof.
  split; [reflexivity|].
  pose proof (C7_xcss_scan_accepts_a_capital_first_letter_only xcss_pass) as T.
  apply (proj1 (T (or_introl eq_refl))).
  exists (js "<Box "), 88%N, (js "styles} />"). split; [now right | reflexivity].
Defined.

Lemma C8_witness :
  Opts.cache shared_cache_opts = Some true
  /\ cache (pass_of first_shared empty_file)
     <> cache (pass_of second_shared empty_file)
  /\ globalCache (fst second_shared)
     = Some (cache (pass_of second_shared empty_file)).
Proof.
  split; [reflexivity|].
  pose proof (C8_every_pass_gets_a_new_cache
                shared_cache_opts shared_cache_opts (js "/repo") (js "/repo")
                (Some (js "/repo/a.tsx")) (Some (js "/repo/b.tsx"))
                empty_file empty_file no_globals
                (pass_of first_shared empty_file)
                (pass_of second_shared empty_file)) as T.
  destruct (T eq_refl eq_refl) as [Hne Hglobal].
  split; [exact Hne | exact (Hglobal eq_refl)].
Defined.

Lemma C10_witness :
  filename anonymous_theme_pass = None
  /\ isCompiledModule anonymous_theme_pass (js "../theme") = false
  /\ isCompiledModule anonymous_theme_pass (js "/repo/theme") = true.
Proof.
  split; [reflexivity|].
  pose proof (C10_no_filename_no_relative_recognition theme_opts (js "/repo")
                None empty_file no_globals
                anonymous_theme_pass anonymous_theme_pass (js "../theme")
                posix_join_keeps_absolute) as T.
  destruct (T eq_refl eq_refl (or_introl eq_refl)) as [_ Hrel].
  split; [exact (Hrel eq_refl eq_refl) | reflexivity].
Defined.

(* ================================================================== *)
(** ** Inputs on which the specification and the code part *)

(** C4: [import { "css" as c } from '@compiled/react'] imports the [css]
    API, yet the specifier stays on the declaration, the declaration stays
    in the program and nothing is recorded for [css]. *)
Lemma C4_counterexample :
  isCompiledModule app_pass (source string_named_import) = true
  /\ In string_named_specifier (specifiers string_named_import)
  /\ imported_name string_named_specifier = Some (apiName_string API_css)
  /\ snd (ImportDeclaration string_named_import app_pass) = Some string_named_import
  /\ compiledImports (fst (ImportDeclaration string_named_import app_pass))
     = Some CompiledImports.empty.
Proof.
  repeat split. now left.
Qed.

(** A remark on the root.  Were [pre] handed the relative root [..], which
    Babel does not do, the origin [./theme] would be stored as [../theme] and
    the specifier [../theme] would match it by equality. *)
Lemma a_relative_root_would_store_a_relative_origin :
  isAbsolute (rootPath_of upward_root_file (js "/repo")) = false
  /\ importSources upward_root_pass = [DEFAULT_IMPORT_SOURCE; js "../theme"]
  /\ isCompiledModule upward_root_pass (js "../theme") = true.
Proof.
  repeat split.
Qed.

(** C6: the comment [* @jsx h] matches the generic pragma pattern
    (capturing [h]), and [pragma.jsx] is not set. *)
Lemma C6_counterexample :
  ast_comments (file other_pragma_pass) = Some [{| value := other_pragma_comment |}]
  /\ JSX_ANNOTATION_REGEX_exec other_pragma_comment = Some (js "h")
  /\ jsx (pragma (enter other_pragma_pass)) = false.
Proof.
  repeat split.
Qed.

(** C7: with [processXcss] at its default, a text that spells the
    attribute [XCSS={] matches the pattern in a case-insensitive reading,
    and [usesXcss] is not set. *)
Lemma C7_counterexample :
  Opts.processXcss (opts capitals_pass) = None
  /\ xcss_test_ignoring_case (code (file capitals_pass)) = true
  /\ usesXcss (enter capitals_pass) = false.
Proof.
  repeat split.
Qed.

(** Two files compiled in sequence with [cache: true] get the instances 0
    and 1, and [globalCache] moves from the one to the other. *)
Lemma shared_cache_is_replaced :
  option_map cache (snd first_shared) = Some 0
  /\ option_map cache (snd second_shared) = Some 1
  /\ globalCache (fst first_shared) = Some 0
  /\ globalCache (fst second_shared) = Some 1.
Proof.
  repeat split.
Qed.

(* ================================================================== *)
(** ** The annotation patterns *)

Section AnnotationRegexFacts.

Variable keyword : jsstring.

Lemma takeNonSpace_split (s : jsstring) :
  exists after,
    s = takeNonSpace s ++ after
    /\ forallb (fun c => negb (isSpace c)) (takeNonSpace s) = true
    /\ (after = [] \/ exists c r, after = c :: r /\ isSpace c = true).
Proof.
  induction s as [|c s IH]; simpl.
  - exists []. auto.
  - destruct (isSpace c) eqn:E.
    + exists (c :: s). repeat split. right. now exists c, s.
    + destruct IH as (after & Hs & Hall & Hafter).
      exists after. simpl. rewrite E, Hall. repeat split; [|exact Hafter].
      now rewrite <- Hs.
Qed.

Lemma m_capture_inv (s c : jsstring) :
  m_capture s = Some c ->
  c = takeNonSpace s /\ exists c0 rest, s = c0 :: rest /\ isSpace c0 = false.
Proof.
  unfold m_capture. destruct s as [|c0 rest]; simpl; [discriminate|].
  destruct (isSpace c0) eqn:E; [discriminate|].
  intros [= <-]. split; [reflexivity|]. now exists c0, rest.
Qed.

Lemma m_capture_head (c0 : N) (rest : jsstring) :
  isSpace c0 = false ->
  m_capture (c0 :: rest) = Some (c0 :: takeNonSpace rest).
Proof.
  intros E. unfold m_capture. simpl. now rewrite E.
Qed.

Lemma m_spaces_capture_app (ws : jsstring) (c0 : N) (rest : jsstring) :
  forallb isSpace ws = true ->
  isSpace c0 = false ->
  m_spaces_capture (ws ++ c0 :: rest) = Some (c0 :: takeNonSpace rest).
Proof.
  intros Hws Hc. induction ws as [|w ws IH]; simpl.
  - rewrite Hc. now apply m_capture_head.
  - simpl in Hws. apply andb_prop in Hws as [Hw Hws].
    rewrite Hw, (IH Hws). reflexivity.
Qed.

Lemma m_spaces_capture_inv (s c : jsstring) :
  m_spaces_capture s = Some c ->
  exists ws c0 rest,
    s = ws ++ c0 :: rest /\ forallb isSpace ws = true /\ isSpace c0 = false
    /\ c = c0 :: takeNonSpace rest.
Proof.
  induction s as [|x s IH]; simpl.
  - unfold m_capture. simpl. discriminate.
  - destruct (isSpace x) eqn:E.
    + destruct (m_spaces_capture s) as [c'|] eqn:R; simpl.
      * intros [= <-]. destruct (IH eq_refl) as (ws & c0 & rest & -> & Hws & Hc & ->).
        exists (x :: ws), c0, rest. simpl. rewrite E, Hws. auto.
      * unfold m_capture. simpl. rewrite E. discriminate.
    + intros M. rewrite (m_capture_head x s E) in M. injection M as <-.
      exists [], x, s. auto.
Qed.

Lemma stripPrefix_app (p r : jsstring) : JsString.stripPrefix p (p ++ r) = Some r.
Proof.
  induction p as [|y p IH]; simpl; [now destruct r|].
  now rewrite N.eqb_refl.
Qed.

Lemma stripPrefix_inv (p : jsstring) :
  forall s r, JsString.stripPrefix p s = Some r -> s = p ++ r.
Proof.
  induction p as [|y p IH]; intros s r.
  - destruct s; simpl; now intros [= <-].
  - destruct s as [|x s]; simpl; [discriminate|].
    destruct (N.eqb x y) eqn:E; [|discriminate].
    apply N.eqb_eq in E. subst y. intros R. now rewrite (IH s r R).
Qed.

(** The keyword at the head of the text, with what follows it. *)
Lemma m_keyword_inv (s c : jsstring) :
  m_keyword keyword s = Some c ->
  exists ws c0 rest,
    s = keyword ++ ws ++ c0 :: rest /\ ws <> [] /\ forallb isSpace ws = true
    /\ isSpace c0 = false /\ c = c0 :: takeNonSpace rest.
Proof.
  unfold m_keyword.
  destruct (JsString.stripPrefix keyword s) as [r|] eqn:P; [|discriminate].
  apply stripPrefix_inv in P. subst s.
  unfold m_after_keyword. destruct r as [|w r]; [discriminate|].
  destruct (isSpace w) eqn:E; [|discriminate].
  intros M. apply m_spaces_capture_inv in M as (ws & c0 & rest & -> & Hws & Hc & ->).
  exists (w :: ws), c0, rest. simpl. rewrite E, Hws. repeat split; auto.
  discriminate.
Qed.

Lemma m_keyword_app (ws : jsstring) (c0 : N) (rest : jsstring) :
  ws <> [] ->
  forallb isSpace ws = true ->
  isSpace c0 = false ->
  m_keyword keyword (keyword ++ ws ++ c0 :: rest) = Some (c0 :: takeNonSpace rest).
Proof.
  intros Hne Hws Hc. unfold m_keyword. rewrite stripPrefix_app.
  destruct ws as [|w ws]; [contradiction|].
  simpl in Hws. apply andb_prop in Hws as [Hw Hws].
  simpl. rewrite Hw. now apply m_spaces_capture_app.
Qed.

Lemma m_spaces_keyword_inv (s c : jsstring) :
  m_spaces_keyword keyword s = Some c ->
  exists ws t, s = ws ++ t /\ m_keyword keyword t = Some c.
Proof.
  induction s as [|x s IH]; simpl.
  - intros M. now exists [], [].
  - destruct (isSpace x).
    + destruct (m_spaces_keyword keyword s) as [c'|] eqn:R; simpl.
      * intros [= <-]. destruct (IH eq_refl) as (ws & t & -> & M).
        now exists (x :: ws), t.
      * intros M. now exists [], (x :: s).
    + intros M. now exists [], (x :: s).
Qed.

Lemma m_spaces_keyword_complete (t c : jsstring) :
  m_keyword keyword t = Some c -> m_spaces_keyword keyword t <> None.
Proof.
  intros M. destruct t as [|x t]; simpl.
  - now rewrite M.
  - destruct (isSpace x).
    + destruct (m_spaces_keyword keyword t); simpl; [discriminate | now rewrite M].
    + now rewrite M.
Qed.

Lemma m_here_inv (s c : jsstring) :
  m_here keyword s = Some c ->
  exists before t, s = before ++ t /\ m_keyword keyword t = Some c.
Proof.
  unfold m_here. destruct s as [|x s].
  - intros M. apply m_spaces_keyword_inv in M as (ws & t & E & M). now exists ws, t.
  - destruct (N.eqb x STAR).
    + destruct (m_spaces_keyword keyword s) as [c'|] eqn:R; simpl.
      * intros [= <-]. apply m_spaces_keyword_inv in R as (ws & t & -> & M).
        now exists (x :: ws), t.
      * intros M. apply (m_spaces_keyword_inv (x :: s)) in M as (ws & t & E & M).
        now exists ws, t.
    + intros M. apply (m_spaces_keyword_inv (x :: s)) in M as (ws & t & E & M).
      now exists ws, t.
Qed.

Lemma m_here_complete (t c : jsstring) :
  m_keyword keyword t = Some c -> m_here keyword t <> None.
Proof.
  intros M. pose proof (m_spaces_keyword_complete t c M) as S.
  unfold m_here. destruct t as [|x t]; [exact S|].
  destruct (N.eqb x STAR); [|exact S].
  destruct (m_spaces_keyword keyword t); simpl; [discriminate | exact S].
Qed.

Lemma annotation_exec_inv (s c : jsstring) :
  annotation_exec keyword s = Some c ->
  exists before t, s = before ++ t /\ m_keyword keyword t = Some c.
Proof.
  induction s as [|x s IH]; cbn [annotation_exec].
  - destruct (m_here keyword []) as [c'|] eqn:M; [|discriminate].
    intros [= <-]. now apply m_here_inv.
  - destruct (m_here keyword (x :: s)) as [c'|] eqn:M.
    + intros [= <-]. now apply m_here_inv.
    + intros R. destruct (IH R) as (before & t & -> & K).
      now exists (x :: before), t.
Qed.

Lemma annotation_exec_complete (before t c : jsstring) :
  m_keyword keyword t = Some c -> annotation_exec keyword (before ++ t) <> None.
Proof.
  intros M. induction before as [|x before IH].
  - pose proof (m_here_complete t c M) as S. cbn [app].
    destruct t as [|y t]; cbn [annotation_exec];
      destruct (m_here keyword _); congruence.
  - cbn [app annotation_exec].
    destruct (m_here keyword (x :: before ++ t)); [discriminate | exact IH].
Qed.

(** X1. An annotation pattern matches a text exactly when the text holds
    the keyword followed by at least one whitespace character and then a
    character that is not whitespace; the optional [*] and whitespace
    before the keyword never decide whether there is a match. *)
Theorem X1_annotation_matches_iff_keyword_space_value (s : jsstring) :
  annotation_exec keyword s <> None <-> annotation_shape keyword s.
Proof.
  split.
  - destruct (annotation_exec keyword s) as [c|] eqn:R; [|congruence].
    intros _. apply annotation_exec_inv in R as (before & t & -> & M).
    apply m_keyword_inv in M as (ws & c0 & rest & -> & Hne & Hws & Hc & _).
    now exists before, ws, c0, rest.
  - intros (before & ws & c0 & rest & -> & Hne & Hws & Hc).
    apply (annotation_exec_complete before _ (c0 :: takeNonSpace rest)).
    now apply m_keyword_app.
Qed.

(** X2. The value an annotation pattern captures is never empty and holds
    no whitespace; in the text it stands right after the keyword and a run
    of whitespace, and it ends at the end of the text or at a whitespace
    character (the longest such run is taken). *)
Theorem X2_annotation_capture_is_a_whole_word (s c : jsstring) :
  annotation_exec keyword s = Some c ->
  c <> []
  /\ forallb (fun x => negb (isSpace x)) c = true
  /\ exists before ws after,
       s = before ++ keyword ++ ws ++ c ++ after
       /\ ws <> []
       /\ forallb isSpace ws = true
       /\ (after = [] \/ exists x r, after = x :: r /\ isSpace x = true).
Proof.
  intros R. apply annotation_exec_inv in R as (before & t & -> & M).
  apply m_keyword_inv in M as (ws & c0 & rest & -> & Hne & Hws & Hc & ->).
  destruct (takeNonSpace_split rest) as (after & Hs & Hall & Hafter).
  split; [discriminate|]. split.
  - simpl. now rewrite Hc, Hall.
  - exists before, ws, after. repeat split; auto.
    simpl. now rewrite <- Hs.
Qed.

End AnnotationRegexFacts.

(* ================================================================== *)
(** ** [pre]: the pass it builds *)

Lemma update_cell_last (f : CacheObject -> CacheObject) (x : CacheObject)
    (h : list CacheObject) :
  update_cell (List.length h) f (h ++ [x]) = h ++ [f x].
Proof.
  induction h as [|y h IH]; simpl; [reflexivity | now rewrite IH].
Qed.

Section PreFacts.

Context {PM : PathModule} {HO : Host}.

Lemma select_cache_heap (o : Opts.t) (g : Globals) :
  heap (snd (select_cache o g))
  = heap g ++ [ {| initializedWith :=
                     [Opts.with_cache (truthy_flag (Opts.cache o)) o] |} ].
Proof.
  unfold select_cache.
  destruct (Opts.cache o) as [[|]|]; simpl; now rewrite update_cell_last.
Qed.

Lemma pre_globals (o : Opts.t) (cwd_ : jsstring) (fn : option jsstring)
    (f : File) (g : Globals) :
  fst (pre o cwd_ fn f g) = snd (select_cache o g).
Proof.
  unfold pre. destruct (select_cache o g) as [c g'].
  destruct (Opts.resolver o) as [[r | specifier]|]; simpl; try reflexivity.
  now destruct (require_resolver _ _).
Qed.

(** The fields of a pass that [pre] sets from scratch. *)
Lemma pre_fresh (o : Opts.t) (cwd_ : jsstring) (fn : option jsstring)
    (f : File) (g : Globals) (s : State) :
  snd (pre o cwd_ fn f g) = Some s ->
  opts s = o /\ file s = f /\ filename s = fn
  /\ compiledImports s = None /\ usesXcss s = false
  /\ pragma s = {| jsxImportSource := false; jsx := false |}
  /\ pathsToCleanup s = [] /\ includedFiles s = []
  /\ resolver s
     = match Opts.resolver o with
       | Some (ResolverObject r) => Some r
       | Some (ResolverModule specifier) =>
           require_resolver specifier (rootPath_of f cwd_)
       | None => None
       end.
Proof.
  unfold pre, rootPath_of. destruct (select_cache o g) as [c g'].
  destruct (Opts.resolver o) as [[r | specifier]|]; simpl.
  - intros [= <-]. repeat split.
  - destruct (require_resolver _ _); simpl; [|discriminate].
    intros [= <-]. repeat split.
  - intros [= <-]. repeat split.
Qed.

(** X3. On every pass that [pre] builds, whatever the filename, the
    default origin is recognised, every configured origin that does not
    start with [.] is recognised under the spelling of the options, and a
    configured origin that starts with [.] is recognised under its spelling
    joined to the root. *)
Theorem X3_configured_origins_are_recognised
    (o : Opts.t) (cwd_ : jsstring) (fn : option jsstring) (f : File)
    (g : Globals) (s0 s : State) :
  snd (pre o cwd_ fn f g) = Some s0 ->
  importSources s = importSources s0 ->
  isCompiledModule s DEFAULT_IMPORT_SOURCE = true
  /\ (forall origins origin,
        Opts.importSources o = Some origins ->
        In origin origins ->
        (JsString.firstIs DOT origin = false -> isCompiledModule s origin = true)
        /\ (JsString.firstIs DOT origin = true ->
            isCompiledModule s (join (rootPath_of f cwd_) origin) = true)).
Proof.
  intros Hpre Hsrc.
  apply pre_importSources in Hpre as [Hsrc0 _]. rewrite Hsrc0 in Hsrc.
  unfold isCompiledModule. rewrite Hsrc. split; [reflexivity|].
  intros origins origin Ho Hin.
  assert (Q : In (qualify_origin (rootPath_of f cwd_) origin)
                (configured_origins o (rootPath_of f cwd_))).
  { unfold configured_origins. rewrite Ho. now apply in_map. }
  assert (R : forall u, In u (configured_origins o (rootPath_of f cwd_)) ->
              existsb (origin_matches s u)
                (DEFAULT_IMPORT_SOURCE :: configured_origins o (rootPath_of f cwd_))
              = true).
  { intros u Hu. apply existsb_exists. exists u. split; [now right|].
    unfold origin_matches. rewrite (eqb_refl u). now rewrite orb_true_r. }
  unfold qualify_origin in Q.
  split; intros E; rewrite E in Q; now apply R.
Qed.

(** X4. [pre] fails exactly when the [resolver] option is a module
    specifier that cannot be loaded; a resolver object is stored as it is
    and no option leaves the resolver unset.  Failing or not, [pre] has by
    then constructed one new [Cache], and replaced [globalCache] by it when
    [cache] is [true] (and only then). *)
Theorem X4_pre_fails_only_when_the_resolver_cannot_be_loaded
    (o : Opts.t) (cwd_ : jsstring) (fn : option jsstring) (f : File) (g : Globals) :
  (snd (pre o cwd_ fn f g) = None
   <-> exists specifier,
         Opts.resolver o = Some (ResolverModule specifier)
         /\ require_resolver specifier (rootPath_of f cwd_) = None)
  /\ (forall s r, snd (pre o cwd_ fn f g) = Some s ->
        Opts.resolver o = Some (ResolverObject r) -> resolver s = Some r)
  /\ (forall s, snd (pre o cwd_ fn f g) = Some s ->
        Opts.resolver o = None -> resolver s = None)
  /\ List.length (heap (fst (pre o cwd_ fn f g))) = S (List.length (heap g))
  /\ (Opts.cache o = Some true ->
      globalCache (fst (pre o cwd_ fn f g)) = Some (List.length (heap g)))
  /\ (Opts.cache o <> Some true ->
      globalCache (fst (pre o cwd_ fn f g)) = globalCache g).
Proof.
  split.
  { unfold pre, rootPath_of. destruct (select_cache o g) as [c g'].
    destruct (Opts.resolver o) as [[r | specifier]|]; simpl.
    - split; [discriminate|]. intros (sp & E & _). discriminate.
    - destruct (require_resolver specifier _) eqn:R; simpl.
      + split; [discriminate|]. intros (sp & [= <-] & E). congruence.
      + split; [|reflexivity]. intros _. now exists specifier.
    - split; [discriminate|]. intros (sp & E & _). discriminate. }
  split.
  { intros s r Hs Hr. apply pre_fresh in Hs.
    destruct Hs as (_ & _ & _ & _ & _ & _ & _ & _ & Hres).
    now rewrite Hres, Hr. }
  split.
  { intros s Hs Hr. apply pre_fresh in Hs.
    destruct Hs as (_ & _ & _ & _ & _ & _ & _ & _ & Hres).
    now rewrite Hres, Hr. }
  rewrite pre_globals.
  destruct (select_cache_fresh o g) as (_ & L & Gon & Goff).
  repeat split; assumption.
Qed.

(** X5. The instance [pre] gives the pass is the one it has just
    constructed; it has been initialised exactly once, with the plugin
    options in which [cache] is the boolean [!!opts.cache]; and no instance
    that existed before is touched. *)
Theorem X5_new_cache_is_initialised_once
    (o : Opts.t) (cwd_ : jsstring) (fn : option jsstring) (f : File) (g : Globals) :
  nth_error (heap (fst (pre o cwd_ fn f g))) (List.length (heap g))
  = Some {| initializedWith := [Opts.with_cache (truthy_flag (Opts.cache o)) o] |}
  /\ (forall i, i < List.length (heap g) ->
        nth_error (heap (fst (pre o cwd_ fn f g))) i = nth_error (heap g) i)
  /\ (forall s, snd (pre o cwd_ fn f g) = Some s -> cache s = List.length (heap g)).
Proof.
  rewrite pre_globals, select_cache_heap. repeat split.
  - rewrite nth_error_app2 by lia. now rewrite Nat.sub_diag.
  - intros i Hi. now apply nth_error_app1.
  - intros s Hs. apply pre_cache in Hs as [C _]. rewrite C.
    apply select_cache_fresh.
Qed.

End PreFacts.

(* ================================================================== *)
(** ** [Program.enter]: what it sets and what it leaves *)

Lemma same_but_flags_refl (s : State) : same_but_flags s s.
Proof.
  unfold same_but_flags. repeat split.
Qed.

Lemma same_but_flags_trans (s1 s2 s3 : State) :
  same_but_flags s1 s2 -> same_but_flags s2 s3 -> same_but_flags s1 s3.
Proof.
  unfold same_but_flags. intros H12 H23.
  destruct H12 as (A1 & A2 & A3 & A4 & A5 & A6 & A7 & A8 & A9 & A10 & A11 & A12).
  destruct H23 as (B1 & B2 & B3 & B4 & B5 & B6 & B7 & B8 & B9 & B10 & B11 & B12).
  repeat split; congruence.
Qed.

Lemma enter_comment_source (s : State) (c : Comment) :
  same_but_flags s (enter_comment s c)
  /\ compiledImports (enter_comment s c)
     = (if sets_source_pragma c then Some CompiledImports.empty
        else compiledImports s)
  /\ jsxImportSource (pragma (enter_comment s c))
     = jsxImportSource (pragma s) || sets_source_pragma c.
Proof.
  unfold enter_comment, sets_source_pragma, same_but_flags.
  destruct (JSX_SOURCE_ANNOTATION_REGEX_exec (value c)) as [m|];
    [destruct (JsString.eqb m DEFAULT_IMPORT_SOURCE)|];
    (destruct (JSX_ANNOTATION_REGEX_exec (value c)) as [m'|];
     [destruct (JsString.eqb m' (js "jsx"))|]);
    simpl; rewrite ?orb_true_r, ?orb_false_r; repeat split.
Qed.

Lemma enter_comments_source (cs : list Comment) :
  forall s : State,
    same_but_flags s (fold_left enter_comment cs s)
    /\ compiledImports (fold_left enter_comment cs s)
       = (if existsb sets_source_pragma cs then Some CompiledImports.empty
          else compiledImports s)
    /\ jsxImportSource (pragma (fold_left enter_comment cs s))
       = jsxImportSource (pragma s) || existsb sets_source_pragma cs.
Proof.
  induction cs as [|c cs IH]; intros s; simpl.
  - rewrite orb_false_r. repeat split.
  - destruct (IH (enter_comment s c)) as (F & C & J).
    destruct (enter_comment_source s c) as (F' & C' & J').
    split; [exact (same_but_flags_trans _ _ _ F' F)|].
    rewrite C, J, C', J'. split; [|now rewrite orb_assoc].
    now destruct (sets_source_pragma c), (existsb sets_source_pragma cs).
Qed.

(** [Program.enter] on the record, the source pragma and the rest. *)
Lemma enter_source (s : State) :
  same_but_flags s (enter s)
  /\ compiledImports (enter s)
     = (if existsb sets_source_pragma (comments_of (file s))
        then Some CompiledImports.empty else compiledImports s)
  /\ jsxImportSource (pragma (enter s))
     = jsxImportSource (pragma s) || existsb sets_source_pragma (comments_of (file s)).
Proof.
  unfold enter, comments_of.
  assert (F : exists s1,
             match ast_comments (file s) with
             | Some comments => fold_left enter_comment comments s
             | None => s
             end = s1
             /\ same_but_flags s s1
             /\ compiledImports s1
                = (if existsb sets_source_pragma
                        match ast_comments (file s) with
                        | Some comments => comments
                        | None => []
                        end
                   then Some CompiledImports.empty else compiledImports s)
             /\ jsxImportSource (pragma s1)
                = jsxImportSource (pragma s)
                  || existsb sets_source_pragma
                       match ast_comments (file s) with
                       | Some comments => comments
                       | None => []
                       end).
  { eexists. split; [reflexivity|].
    destruct (ast_comments (file s)) as [cs|].
    - apply enter_comments_source.
    - simpl. rewrite orb_false_r. repeat split. }
  destruct F as (s1 & -> & F & C & J).
  destruct (_ && _); simpl; auto.
Qed.

Lemma existsb_sets_source (cs : list Comment) :
  existsb sets_source_pragma cs = true
  <-> exists c, In c cs
        /\ JSX_SOURCE_ANNOTATION_REGEX_exec (value c) = Some DEFAULT_IMPORT_SOURCE.
Proof.
  rewrite existsb_exists. unfold sets_source_pragma. split.
  - intros (c & Hin & E). exists c. split; [exact Hin|].
    destruct (JSX_SOURCE_ANNOTATION_REGEX_exec (value c)) as [m|]; [|discriminate].
    apply eqb_eq in E. now subst m.
  - intros (c & Hin & E). exists c. split; [exact Hin|]. rewrite E. apply eqb_refl.
Qed.

(** X6. The [jsxImportSource] pragma.  When a comment of the file matches
    the source pattern and the value it captures is the default origin,
    [Program.enter] sets [pragma.jsxImportSource] and replaces
    [compiledImports] by the empty record, whatever it held.  When no
    comment does (another source, no pragma, no comments), both are left as
    they were. *)
Theorem X6_source_pragma_installs_an_empty_record (s : State) :
  ((exists c, In c (comments_of (file s))
      /\ JSX_SOURCE_ANNOTATION_REGEX_exec (value c) = Some DEFAULT_IMPORT_SOURCE) ->
     compiledImports (enter s) = Some CompiledImports.empty
     /\ jsxImportSource (pragma (enter s)) = true)
  /\ ((forall c, In c (comments_of (file s)) ->
         JSX_SOURCE_ANNOTATION_REGEX_exec (value c) <> Some DEFAULT_IMPORT_SOURCE) ->
      compiledImports (enter s) = compiledImports s
      /\ jsxImportSource (pragma (enter s)) = jsxImportSource (pragma s)).
Proof.
  destruct (enter_source s) as (_ & C & J). rewrite C, J. split.
  - intros Hex. apply existsb_sets_source in Hex. rewrite Hex.
    now rewrite orb_true_r.
  - intros Hno.
    assert (X : existsb sets_source_pragma (comments_of (file s)) = false).
    { apply not_true_is_false. intros X. apply existsb_sets_source in X.
      destruct X as (c & Hin & E). now apply (Hno c). }
    rewrite X. now rewrite orb_false_r.
Qed.

(** X7. [Program.enter] writes [compiledImports], [pragma] and [usesXcss]
    and nothing else (the queue, the included files, the origins, the
    cache, the options and the filename are as before), and it only ever
    switches on: a flag that was set stays set and a record that existed
    still exists. *)
Theorem X7_enter_only_switches_flags_on (s : State) :
  same_but_flags s (enter s)
  /\ (usesXcss s = true -> usesXcss (enter s) = true)
  /\ (jsx (pragma s) = true -> jsx (pragma (enter s)) = true)
  /\ (jsxImportSource (pragma s) = true -> jsxImportSource (pragma (enter s)) = true)
  /\ (compiledImports s <> None -> compiledImports (enter s) <> None).
Proof.
  destruct (enter_source s) as (F & C & J).
  split; [exact F|]. repeat split.
  - intros E. now rewrite enter_usesXcss, E.
  - intros E. now rewrite enter_jsx, E.
  - intros E. now rewrite J, E.
  - intros E. rewrite C. now destruct (existsb _ _).
Qed.

(** X8. With [processXcss: false] the text is not scanned: [usesXcss]
    keeps its value even when the text holds [xcss={]. *)
Theorem X8_processXcss_false_disables_the_scan (s : State) :
  Opts.processXcss (opts s) = Some false ->
  usesXcss (enter s) = usesXcss s.
Proof.
  intros E. rewrite enter_usesXcss, E. apply orb_false_r.
Qed.

(* ================================================================== *)
(** ** [Program.exit]: the calls it makes *)

Section ExitFacts.

Context {PM : PathModule} {HO : Host} {B : Babel} {H : Handlers}.

(** [Program.exit] past its guard: the prologue, then the cleanup loop. *)
Lemma exit_run (w : World) :
  nothing_to_do (state w) = false ->
  exit w
  = (if cleanup_throws (pathsToCleanup (state w)) (tree_before_cleanup w)
     then None else Some tt,
     {| tree := cleaned_tree (pathsToCleanup (state w)) (tree_before_cleanup w);
        state := state w;
        log := log w ++ prologue_events w
               ++ map cleanup_event
                    (applied (pathsToCleanup (state w)) (tree_before_cleanup w)) |}).
Proof.
  intros G.
  unfold tree_before_cleanup, prologue_events, forwardRef_import_events,
    tree_at_forwardRef_check, React_import_events,
    shouldImportReact_of, included_files_events, tree_at_React_check.
  unfold exit.
  unfold bind at 1. unfold get_state at 1. cbv beta iota. rewrite G.
  unfold bind, mutate, inspect, when, emit, ret; simpl.
  destruct (jsxImportSource (pragma (state w)) || jsx (pragma (state w)));
    destruct (Opts.importReact (opts (state w))) as [[|]|];
    destruct (scope_getBinding (js "React")
                (appendRuntimeImports (state w) (preserveLeadingComments (tree w))));
    simpl;
    match goal with
    | |- context [styled_enabled ?s && negb ?b] =>
        destruct (styled_enabled s && negb b)
    end; simpl;
    destruct (includedFiles (state w)); simpl;
    destruct (Opts.onIncludedFiles (opts (state w))); simpl;
    rewrite forEach_clean_path; simpl; rewrite <- ?app_assoc; reflexivity.
Qed.

Lemma exit_trace (w : World) :
  nothing_to_do (state w) = false ->
  log (run exit w)
  = log w ++ prologue_events w
    ++ map cleanup_event
         (applied (pathsToCleanup (state w)) (tree_before_cleanup w))
  /\ state (run exit w) = state w
  /\ tree (run exit w)
     = cleaned_tree (pathsToCleanup (state w)) (tree_before_cleanup w)
  /\ threw exit w = cleanup_throws (pathsToCleanup (state w)) (tree_before_cleanup w).
Proof.
  intros G. unfold run, threw. rewrite (exit_run w G). simpl.
  repeat split. now destruct (cleanup_throws _ _).
Qed.

Lemma exit_emitted (w : World) :
  nothing_to_do (state w) = false ->
  emitted exit w
  = [EvPreserveLeadingComments; EvAppendRuntimeImports]
    ++ React_import_events w
    ++ forwardRef_import_events w
    ++ [EvAddComment (provenance (state w)); EvUnshiftContainer Noop]
    ++ included_files_events (state w)
    ++ map cleanup_event
         (applied (pathsToCleanup (state w)) (tree_before_cleanup w)).
Proof.
  intros G. apply emitted_of_log. destruct (exit_trace w G) as [L _].
  rewrite L. unfold prologue_events. now rewrite <- !app_assoc.
Qed.

Lemma exit_emitted_at_guard (w : World) :
  nothing_to_do (state w) = true -> emitted exit w = [].
Proof.
  intros G. apply emitted_of_log. rewrite (exit_at_guard w G).
  now rewrite app_nil_r.
Qed.

Lemma cleanup_events_filtered (P : Event -> bool) (q : list Cleanup) :
  (forall p, P (EvRemove p) = false) ->
  (forall p n, P (EvReplaceWith p n) = false) ->
  filter P (map cleanup_event q) = [].
Proof.
  intros Hr Hp. induction q as [|c q IH]; [reflexivity|].
  simpl. unfold cleanup_event at 1.
  destruct (action c); now rewrite ?Hr, ?Hp.
Qed.

Lemma React_events_filtered (P : Event -> bool) (w : World) :
  P (EvUnshiftContainer import_React) = false ->
  filter P (React_import_events w) = [].
Proof.
  intros E. unfold React_import_events.
  destruct (_ && _); simpl; now rewrite ?E.
Qed.

Lemma forwardRef_events_filtered (P : Event -> bool) (w : World) :
  P (EvUnshiftContainer import_forwardRef) = false ->
  filter P (forwardRef_import_events w) = [].
Proof.
  intros E. unfold forwardRef_import_events.
  destruct (_ && _); simpl; now rewrite ?E.
Qed.

Lemma included_events_filtered (P : Event -> bool) (s : State) :
  (forall cb files, P (EvOnIncludedFiles cb files) = false) ->
  filter P (included_files_events s) = [].
Proof.
  intros E. unfold included_files_events.
  destruct (includedFiles s); [reflexivity|].
  destruct (Opts.onIncludedFiles (opts s)); simpl; now rewrite ?E.
Qed.

(** What [Program.exit] emits, seen through the [React] import. *)
Lemma exit_React_filter (w : World) :
  nothing_to_do (state w) = false ->
  filter is_import_React (emitted exit w) = React_import_events w.
Proof.
  intros G. rewrite (exit_emitted w G). rewrite !filter_app.
  rewrite forwardRef_events_filtered by reflexivity.
  rewrite included_events_filtered by reflexivity.
  rewrite cleanup_events_filtered by reflexivity.
  simpl. rewrite app_nil_r.
  unfold React_import_events. now destruct (_ && _).
Qed.

Lemma React_import_events_spec (w : World) :
  (React_import_events w = [EvUnshiftContainer import_React]
   \/ React_import_events w = [])
  /\ (React_import_events w = [EvUnshiftContainer import_React]
      <-> (jsxImportSource (pragma (state w)) || jsx (pragma (state w)) = false
           /\ Opts.importReact (opts (state w)) <> Some false
           /\ scope_getBinding (js "React") (tree_at_React_check w) = false)).
Proof.
  unfold React_import_events, shouldImportReact_of.
  destruct (jsxImportSource (pragma (state w)) || jsx (pragma (state w)));
    destruct (Opts.importReact (opts (state w))) as [[|]|];
    destruct (scope_getBinding (js "React") (tree_at_React_check w));
    simpl; split; auto; split; try discriminate; try congruence;
    intuition congruence.
Qed.

Lemma exit_React_imports (w : World) :
  nothing_to_do (state w) = false ->
  (filter is_import_React (emitted exit w) = [EvUnshiftContainer import_React]
   \/ filter is_import_React (emitted exit w) = [])
  /\ (filter is_import_React (emitted exit w) = [EvUnshiftContainer import_React]
      <-> (jsxImportSource (pragma (state w)) || jsx (pragma (state w)) = false
           /\ Opts.importReact (opts (state w)) <> Some false
           /\ scope_getBinding (js "React") (tree_at_React_check w) = false)).
Proof.
  intros G. rewrite (exit_React_filter w G). apply React_import_events_spec.
Qed.


(** X10. A finalization that runs inserts the [forwardRef] import exactly
    when [styled] was imported (under a non-empty local name) and
    [forwardRef] has no binding in the program scope at that point, that is
    after the [React] import was dealt with; it then inserts it once, and
    neither [importReact] nor the pragmas play a part. *)
Theorem X10_forwardRef_import (w : World) :
  nothing_to_do (state w) = false ->
  (filter is_import_forwardRef (emitted exit w)
   = [EvUnshiftContainer import_forwardRef]
   <-> styled_enabled (state w) = true
       /\ scope_getBinding (js "forwardRef") (tree_at_forwardRef_check w) = false)
  /\ (filter is_import_forwardRef (emitted exit w)
      = [EvUnshiftContainer import_forwardRef]
      \/ filter is_import_forwardRef (emitted exit w) = []).
Proof.
  intros G. rewrite (exit_emitted w G).
  assert (F : filter is_import_forwardRef
                ([EvPreserveLeadingComments; EvAppendRuntimeImports]
                 ++ React_import_events w
                 ++ forwardRef_import_events w
                 ++ [EvAddComment (provenance (state w)); EvUnshiftContainer Noop]
                 ++ included_files_events (state w)
                 ++ map cleanup_event
                      (applied (pathsToCleanup (state w)) (tree_before_cleanup w)))
              = forwardRef_import_events w).
  { rewrite !filter_app.
    rewrite React_events_filtered by reflexivity.
    rewrite included_events_filtered by reflexivity.
    rewrite cleanup_events_filtered by reflexivity.
    simpl. rewrite app_nil_r.
    unfold forwardRef_import_events. now destruct (_ && _). }
  rewrite F. unfold forwardRef_import_events.
  destruct (styled_enabled (state w));
    destruct (scope_getBinding (js "forwardRef") (tree_at_forwardRef_check w));
    simpl; split; auto; split; try discriminate; intuition discriminate.
Qed.

(** X11. [onIncludedFiles] is called at most once per file: exactly when
    the finalization runs, files were included and a callback was supplied,
    and then with [unique] of the included files.  Without included files,
    without callback or behind the guard it is not called. *)
Theorem X11_onIncludedFiles_is_called_at_most_once (w : World) :
  (nothing_to_do (state w) = false ->
   forall callback,
     Opts.onIncludedFiles (opts (state w)) = Some callback ->
     includedFiles (state w) <> [] ->
     filter is_included_files_event (emitted exit w)
     = [EvOnIncludedFiles callback (unique (includedFiles (state w)))])
  /\ (nothing_to_do (state w) = true
      \/ Opts.onIncludedFiles (opts (state w)) = None
      \/ includedFiles (state w) = [] ->
      filter is_included_files_event (emitted exit w) = []).
Proof.
  assert (F : nothing_to_do (state w) = false ->
              filter is_included_files_event (emitted exit w)
              = included_files_events (state w)).
  { intros G. rewrite (exit_emitted w G). rewrite !filter_app.
    rewrite React_events_filtered, forwardRef_events_filtered by reflexivity.
    rewrite cleanup_events_filtered by reflexivity.
    simpl. rewrite app_nil_r.
    unfold included_files_events.
    destruct (includedFiles (state w)); [reflexivity|].
    now destruct (Opts.onIncludedFiles (opts (state w))). }
  split.
  - intros G callback Hcb Hne. rewrite (F G). unfold included_files_events.
    rewrite Hcb. now destruct (includedFiles (state w)).
  - intros Hno. destruct (nothing_to_do (state w)) eqn:G.
    + now rewrite exit_emitted_at_guard.
    + rewrite (F eq_refl). unfold included_files_events.
      destruct Hno as [Hno | [Hno | Hno]]; [discriminate | |]; rewrite Hno;
        [now destruct (includedFiles (state w)) | reflexivity].
Qed.

(** X12. [Program.exit] never changes the plugin pass, and it never calls
    a [visit*Path] handler or [normalizePropsUsage]: the queue it has
    applied is still in the state afterwards. *)
Theorem X12_exit_leaves_the_pass_and_calls_no_handler (w : World) :
  state (run exit w) = state w
  /\ filter is_handler_event (emitted exit w) = [].
Proof.
  destruct (nothing_to_do (state w)) eqn:G.
  - rewrite (exit_at_guard w G). split; [reflexivity|].
    now rewrite exit_emitted_at_guard.
  - split; [now apply exit_trace|].
    rewrite (exit_emitted w G). rewrite !filter_app.
    rewrite React_events_filtered, forwardRef_events_filtered by reflexivity.
    rewrite included_events_filtered by reflexivity.
    now rewrite cleanup_events_filtered by reflexivity.
Qed.

End ExitFacts.

(* ================================================================== *)
(** ** [ImportDeclaration]: how visits compose *)

Lemma filter_idempotent {A} (f : A -> bool) (l : list A) :
  filter f (filter f l) = filter f l.
Proof.
  induction l as [|x l IH]; simpl; [reflexivity|].
  destruct (f x) eqn:E; simpl; [now rewrite E, IH | exact IH].
Qed.

Lemma record_specifier_idle (l : list ImportSpecifierNode) :
  forall r : CompiledImports.t,
    (forall sp, In sp l -> enables_api sp = false) ->
    fold_left record_specifier l r = r.
Proof.
  induction l as [|sp l IH]; intros r Hno; simpl; [reflexivity|].
  assert (E : record_specifier r sp = r).
  { specialize (Hno sp (or_introl eq_refl)).
    unfold record_specifier, enables_api in *.
    now destruct (api_of_specifier sp). }
  rewrite E. apply IH. intros sp' Hin. apply Hno. now right.
Qed.

Lemma record_specifier_grows (a : ApiName) (l : list ImportSpecifierNode) :
  forall r : CompiledImports.t,
    CompiledImports.get a r <> None ->
    CompiledImports.get a (fold_left record_specifier l r) <> None.
Proof.
  induction l as [|sp l IH]; intros r Hr; simpl; [exact Hr|].
  apply IH. unfold record_specifier.
  destruct (api_of_specifier sp) as [b|]; [|exact Hr].
  destruct a, b; simpl in *; congruence.
Qed.

Section ImportDeclarationFacts.

Context {PM : PathModule}.

Lemma isCompiledModule_set_compiledImports (c : option CompiledImports.t)
    (s : State) (u : jsstring) :
  isCompiledModule (set_compiledImports c s) u = isCompiledModule s u.
Proof.
  reflexivity.
Qed.

(** The visitor on a recognised declaration. *)
Lemma ImportDeclaration_run (node : ImportDeclarationNode) (s : State) :
  isCompiledModule s (source node) = true ->
  ImportDeclaration node s
  = (set_compiledImports
       (Some (fold_left record_specifier (specifiers node)
                match compiledImports s with
                | Some r => r
                | None => CompiledImports.empty
                end)) s,
     match filter (fun sp => negb (enables_api sp)) (specifiers node) with
     | [] => None
     | kept => Some {| source := source node; specifiers := kept |}
     end).
Proof.
  intros E. unfold ImportDeclaration. rewrite E. simpl.
  rewrite visit_specifiers_spec
    with (r := match compiledImports s with
               | Some r => r
               | None => CompiledImports.empty
               end) by reflexivity.
  now destruct (filter _ (specifiers node)).
Qed.

(** X13. Visiting an import declaration a second time changes nothing:
    when the visitor has left a recognised declaration in the program,
    running it again on what it left, in the state it left, returns the same
    state and the same declaration. *)
Theorem X13_ImportDeclaration_is_idempotent
    (node node' : ImportDeclarationNode) (s : State) :
  isCompiledModule s (source node) = true ->
  snd (ImportDeclaration node s) = Some node' ->
  ImportDeclaration node' (fst (ImportDeclaration node s))
  = (fst (ImportDeclaration node s), Some node').
Proof.
  intros E Hleft. rewrite (ImportDeclaration_run node s E) in *.
  simpl in *.
  set (record := fold_left record_specifier (specifiers node) _) in *.
  set (kept := filter (fun sp => negb (enables_api sp)) (specifiers node)) in *.
  assert (K : node' = {| source := source node; specifiers := kept |}).
  { destruct kept; [discriminate | now injection Hleft as <-]. }
  assert (Hne : kept <> []).
  { destruct kept; [discriminate | discriminate]. }
  subst node'.
  rewrite ImportDeclaration_run by exact E. simpl.
  rewrite (record_specifier_idle kept record).
  - subst kept. rewrite filter_idempotent.
    destruct (filter _ (specifiers node)); [contradiction | reflexivity].
  - intros sp Hin. apply filter_In in Hin as [_ Hin].
    now destruct (enables_api sp).
Qed.

(** X14. The visitor writes [compiledImports] and no other field of the
    pass.  On a recognised declaration the record only grows: an API that
    had a local name still has one, and an API that no specifier of the
    declaration imports keeps the local name it had, so that the imports of
    several declarations add up. *)
Theorem X14_bindings_accumulate_across_declarations
    (node : ImportDeclarationNode) (s : State) :
  same_but_flags s (fst (ImportDeclaration node s))
  /\ pragma (fst (ImportDeclaration node s)) = pragma s
  /\ usesXcss (fst (ImportDeclaration node s)) = usesXcss s
  /\ (isCompiledModule s (source node) = true ->
      forall r, compiledImports s = Some r ->
        exists r',
          compiledImports (fst (ImportDeclaration node s)) = Some r'
          /\ (forall a, CompiledImports.get a r <> None ->
                CompiledImports.get a r' <> None)
          /\ (forall a,
                (forall sp, In sp (specifiers node) -> api_of_specifier sp <> Some a) ->
                CompiledImports.get a r' = CompiledImports.get a r)).
Proof.
  destruct (isCompiledModule s (source node)) eqn:E.
  - rewrite (ImportDeclaration_run node s E). simpl.
    split; [unfold same_but_flags; repeat split|].
    split; [reflexivity|]. split; [reflexivity|].
    intros _ r Hr. rewrite Hr. eexists. split; [reflexivity|]. split.
    + intros a Ha. now apply record_specifier_grows.
    + intros a Hno. now apply record_specifier_keeps.
  - assert (R : ImportDeclaration node s = (s, Some node)).
    { unfold ImportDeclaration. now rewrite E. }
    rewrite R. simpl. split; [apply same_but_flags_refl|].
    split; [reflexivity|]. split; [reflexivity|]. discriminate.
Qed.

(** X15. A recognised import declaration always opens the guard of
    [Program.exit], also when it imports nothing by name; a declaration
    without specifiers ([import '@compiled/react']) is removed.  An
    unrecognised declaration leaves the guard as it was. *)
Theorem X15_a_recognised_import_enables_finalization
    (node : ImportDeclarationNode) (s : State) :
  (isCompiledModule s (source node) = true ->
     nothing_to_do (fst (ImportDeclaration node s)) = false
     /\ (specifiers node = [] -> snd (ImportDeclaration node s) = None))
  /\ (isCompiledModule s (source node) = false ->
      nothing_to_do (fst (ImportDeclaration node s)) = nothing_to_do s).
Proof.
  split; intros E.
  - rewrite (ImportDeclaration_run node s E). simpl. split; [reflexivity|].
    now intros ->.
  - unfold ImportDeclaration. now rewrite E.
Qed.

End ImportDeclarationFacts.

(* ================================================================== *)
(** ** The markup visitors and the passes of a whole file *)

Lemma app_cons_not_self {A} (l r : list A) (x : A) : l <> l ++ x :: r.
Proof.
  intros E. apply (f_equal (@List.length A)) in E.
  rewrite length_app in E. simpl in E. lia.
Qed.

Section PipelineFacts.

Context {PM : PathModule} {HO : Host} {B : Babel} {H : Handlers}.

Lemma JSXOpeningElement_run (p : NodePath) (w : World) :
  run (JSXOpeningElement p) w
  = let mid := after_xcss_handler p w in
    let seen := log w ++ (if usesXcss (state w) then [EvVisitXcssPropPath p] else []) in
    match compiledImports (snd mid) with
    | Some _ =>
        {| tree := fst (visitCssPropPath p mid);
           state := snd (visitCssPropPath p mid);
           log := seen ++ [EvVisitCssPropPath p] |}
    | None => {| tree := fst mid; state := snd mid; log := seen |}
    end.
Proof.
  unfold JSXOpeningElement, run, after_xcss_handler.
  unfold bind at 1. unfold get_state at 1. unfold bind at 1.
  destruct (usesXcss (state w)); simpl.
  - unfold delegate at 1.
    destruct (visitXcssPropPath p (tree w, state w)) as [t1 s1]. simpl.
    unfold bind, get_state. simpl.
    destruct (compiledImports s1); simpl; [|reflexivity].
    unfold delegate. simpl. now destruct (visitCssPropPath p (t1, s1)).
  - unfold bind, get_state, ret. simpl. rewrite app_nil_r.
    destruct (compiledImports (state w)); simpl; [|now rewrite world_eta].
    unfold delegate. now destruct (visitCssPropPath p (tree w, state w)).
Qed.

(** X16. [JSXOpeningElement] makes two independent tests on the same
    node.  Without [usesXcss] and without a record it does nothing.  With
    [usesXcss] it calls the xcss handler first; the css-prop handler is
    called next exactly when a record exists in the state the xcss handler
    left, and it is handed the tree and state that handler left, so both may
    run on one node. *)
Theorem X16_opening_element_runs_both_handlers_in_order (p : NodePath) (w : World) :
  let visit := JSXOpeningElement p in
  (usesXcss (state w) = false -> compiledImports (state w) = None ->
     run visit w = w)
  /\ (usesXcss (state w) = false -> compiledImports (state w) <> None ->
      emitted visit w = [EvVisitCssPropPath p]
      /\ (tree (run visit w), state (run visit w))
         = visitCssPropPath p (tree w, state w))
  /\ (usesXcss (state w) = true ->
      compiledImports (snd (visitXcssPropPath p (tree w, state w))) <> None ->
      emitted visit w = [EvVisitXcssPropPath p; EvVisitCssPropPath p]
      /\ (tree (run visit w), state (run visit w))
         = visitCssPropPath p (visitXcssPropPath p (tree w, state w)))
  /\ (usesXcss (state w) = true ->
      compiledImports (snd (visitXcssPropPath p (tree w, state w))) = None ->
      emitted visit w = [EvVisitXcssPropPath p]
      /\ (tree (run visit w), state (run visit w))
         = visitXcssPropPath p (tree w, state w)).
Proof.
  intros visit. subst visit.
  pose proof (JSXOpeningElement_run p w) as E. simpl in E.
  unfold after_xcss_handler in E.
  repeat split; intros.
  - rewrite H0 in E. simpl in E. rewrite H1 in E.
    rewrite E, app_nil_r. apply world_eta.
  - apply emitted_of_log. rewrite H0 in E. simpl in E.
    destruct (compiledImports (state w)); [|contradiction].
    rewrite E. simpl. now rewrite app_nil_r.
  - rewrite H0 in E. simpl in E.
    destruct (compiledImports (state w)); [|contradiction].
    rewrite E. simpl. now destruct (visitCssPropPath p (tree w, state w)).
  - apply emitted_of_log. rewrite H0 in E.
    destruct (compiledImports (snd (visitXcssPropPath p (tree w, state w))));
      [|contradiction].
    rewrite E. simpl. now rewrite <- app_assoc.
  - rewrite H0 in E.
    destruct (compiledImports (snd (visitXcssPropPath p (tree w, state w))));
      [|contradiction].
    rewrite E. simpl.
    now destruct (visitCssPropPath p (visitXcssPropPath p (tree w, state w))).
  - apply emitted_of_log. rewrite H0, H1 in E. now rewrite E.
  - rewrite H0, H1 in E. rewrite E. simpl.
    now destruct (visitXcssPropPath p (tree w, state w)).
Qed.

Lemma JSXElement_run (p : NodePath) (w : World) :
  run (JSXElement p) w
  = match compiledImports (state w) with
    | Some record =>
        match CompiledImports.ClassNames record with
        | Some (_ :: _) =>
            {| tree := fst (visitClassNamesPath p (tree w, state w));
               state := snd (visitClassNamesPath p (tree w, state w));
               log := log w ++ [EvVisitClassNamesPath p] |}
        | _ => w
        end
    | None => w
    end.
Proof.
  unfold JSXElement, run. unfold bind, get_state. simpl.
  destruct (compiledImports (state w)) as [record|]; [|reflexivity].
  destruct (CompiledImports.ClassNames record) as [[|x local]|]; try reflexivity.
  simpl. unfold delegate. now destruct (visitClassNamesPath p (tree w, state w)).
Qed.

(** X17. [JSXElement] calls the [ClassNames] handler on every element once
    a recognised declaration has imported [ClassNames] (under any non-empty
    local name, the last such specifier of the declaration deciding), and on
    no element of a pass whose record, if any, has no [ClassNames] entry,
    whatever other API was imported. *)
Theorem X17_ClassNames_import_switches_the_element_visitor_on
    (node : ImportDeclarationNode) (s : State) (p : NodePath) (w : World) :
  (isCompiledModule s (source node) = true ->
   forall local before after,
     specifiers node
     = before ++ ImportSpecifier (Identifier (js "ClassNames")) local :: after ->
     (forall sp, In sp after -> api_of_specifier sp <> Some API_ClassNames) ->
     local <> [] ->
     state w = fst (ImportDeclaration node s) ->
     emitted (JSXElement p) w = [EvVisitClassNamesPath p]
     /\ (tree (run (JSXElement p) w), state (run (JSXElement p) w))
        = visitClassNamesPath p (tree w, state w))
  /\ ((forall record, compiledImports (state w) = Some record ->
         CompiledImports.ClassNames record = None) ->
      run (JSXElement p) w = w).
Proof.
  split.
  - intros E local before after Hsplit Hlast Hne Hw.
    pose proof (JSXElement_run p w) as R.
    rewrite Hw in R at 1. rewrite (ImportDeclaration_run node s E) in R.
    simpl in R. rewrite Hsplit, fold_left_app in R. simpl in R.
    assert (G : CompiledImports.ClassNames
                  (fold_left record_specifier after
                     (record_specifier
                        (fold_left record_specifier before
                           match compiledImports s with
                           | Some r => r
                           | None => CompiledImports.empty
                           end)
                        (ImportSpecifier (Identifier (js "ClassNames")) local)))
                = Some local).
    { change (CompiledImports.ClassNames ?r)
        with (CompiledImports.get API_ClassNames r).
      rewrite record_specifier_keeps by exact Hlast. reflexivity. }
    rewrite G in R. destruct local as [|x local]; [contradiction|].
    split.
    + apply emitted_of_log. now rewrite R.
    + rewrite R. simpl. now destruct (visitClassNamesPath p (tree w, state w)).
  - intros Hno. rewrite JSXElement_run.
    destruct (compiledImports (state w)) as [record|]; [|reflexivity].
    now rewrite (Hno record eq_refl).
Qed.

(** X18. A whole file that needs nothing.  On the pass [pre] builds,
    after [Program.enter] and with no recognised import seen,
    [Program.exit] leaves the world exactly as it is if and only if no
    comment carries the [jsxImportSource] pragma of the default origin and
    the [xcss] scan is off or finds nothing; otherwise the finalization
    runs. *)
Theorem X18_untouched_file_iff_no_pragma_and_no_xcss
    (o : Opts.t) (cwd_ : jsstring) (fn : option jsstring) (f : File)
    (g : Globals) (s0 : State) (w : World) :
  snd (pre o cwd_ fn f g) = Some s0 ->
  state w = enter s0 ->
  (run exit w = w
   <-> (forall c, In c (comments_of f) ->
          JSX_SOURCE_ANNOTATION_REGEX_exec (value c) <> Some DEFAULT_IMPORT_SOURCE)
       /\ (Opts.processXcss o = Some false \/ xcss_test (code f) = false)).
Proof.
  intros Hpre Hw.
  apply pre_fresh in Hpre as (Ho & Hf & _ & Hc & Hx & _).
  destruct (enter_source s0) as (_ & C & _).
  pose proof (enter_usesXcss s0) as X.
  rewrite Hc, Hf in C. rewrite Hx, Ho, Hf in X. simpl in X.
  assert (G : nothing_to_do (state w)
              = negb (existsb sets_source_pragma (comments_of f))
                && negb (match Opts.processXcss o with
                         | Some b => b
                         | None => true
                         end && xcss_test (code f))).
  { unfold nothing_to_do. rewrite Hw, C, X.
    now destruct (existsb sets_source_pragma (comments_of f)). }
  assert (S : existsb sets_source_pragma (comments_of f) = false
              <-> forall c, In c (comments_of f) ->
                    JSX_SOURCE_ANNOTATION_REGEX_exec (value c)
                    <> Some DEFAULT_IMPORT_SOURCE).
  { split.
    - intros E c Hin M.
      assert (T : existsb sets_source_pragma (comments_of f) = true)
        by (apply existsb_sets_source; now exists c).
      congruence.
    - intros Hno. apply not_true_is_false. intros T.
      apply existsb_sets_source in T as (c & Hin & M). now apply (Hno c). }
  split.
  - intros E. destruct (nothing_to_do (state w)) eqn:N.
    + symmetry in G. apply andb_prop in G as [G1 G2].
      apply negb_true_iff in G1, G2. split; [now apply S|].
      destruct (Opts.processXcss o) as [[|]|]; simpl in G2; auto.
    + exfalso. destruct (exit_trace w N) as [L _]. rewrite E in L.
      simpl in L. now apply app_cons_not_self in L.
  - intros [Hno Hscan]. apply exit_at_guard. rewrite G.
    apply S in Hno. rewrite Hno. simpl.
    destruct Hscan as [-> | ->]; [reflexivity|]. now rewrite andb_false_r.
Qed.

(** X19. Under the [jsxImportSource] pragma of the default origin the
    finalization runs, without any import, and it never inserts the
    [React] import, whatever [importReact] says and whether or not [React]
    is in scope. *)
Theorem X19_source_pragma_runs_finalization_without_React_import
    (s : State) (w : World) :
  (exists c, In c (comments_of (file s))
     /\ JSX_SOURCE_ANNOTATION_REGEX_exec (value c) = Some DEFAULT_IMPORT_SOURCE) ->
  state w = enter s ->
  nothing_to_do (state w) = false
  /\ filter is_import_React (emitted exit w) = [].
Proof.
  intros Hex Hw.
  destruct (enter_source s) as (_ & C & J).
  apply existsb_sets_source in Hex. rewrite Hex in C. rewrite Hex, orb_true_r in J.
  assert (N : nothing_to_do (state w) = false).
  { unfold nothing_to_do. now rewrite Hw, C. }
  split; [exact N|].
  destruct (exit_React_imports w N) as [[Hin | Hout] Hiff]; [|exact Hout].
  apply Hiff in Hin. destruct Hin as (Hp & _). rewrite Hw, J in Hp. discriminate.
Qed.

End PipelineFacts.

(* ================================================================== *)
(** ** The further properties on the sample inputs *)

Lemma X1_witness :
  annotation_shape (js "@jsx") (js "* @jsx jsx ")
  /\ JSX_ANNOTATION_REGEX_exec (js "* @jsx jsx ") <> None.
Proof.
  assert (S : annotation_shape (js "@jsx") (js "* @jsx jsx ")).
  { exists (js "* "), (js " "), 106%N, (js "sx "). repeat split. discriminate. }
  split; [exact S|].
  exact (proj2 (X1_annotation_matches_iff_keyword_space_value
                  (js "@jsx") (js "* @jsx jsx ")) S).
Defined.

Lemma X2_witness :
  JSX_SOURCE_ANNOTATION_REGEX_exec (js "* @jsxImportSource @compiled/react ")
  = Some DEFAULT_IMPORT_SOURCE
  /\ DEFAULT_IMPORT_SOURCE <> []
  /\ forallb (fun x => negb (isSpace x)) DEFAULT_IMPORT_SOURCE = true.
Proof.
  split; [reflexivity|].
  pose proof (X2_annotation_capture_is_a_whole_word (js "@jsxImportSource")
                (js "* @jsxImportSource @compiled/react ")
                DEFAULT_IMPORT_SOURCE) as T.
  destruct (T eq_refl) as (A & C & _). split; [exact A | exact C].
Defined.

Lemma X3_witness :
  filename two_origins_pass = None
  /\ isCompiledModule two_origins_pass DEFAULT_IMPORT_SOURCE = true
  /\ isCompiledModule two_origins_pass (js "@af/compiled") = true
  /\ isCompiledModule two_origins_pass (js "/repo/theme") = true.
Proof.
  split; [reflexivity|].
  pose proof (X3_configured_origins_are_recognised two_origins_opts (js "/repo")
                None empty_file no_globals two_origins_pass two_origins_pass) as T.
  destruct (T eq_refl eq_refl) as [D O].
  pose proof (O [js "@af/compiled"; js "./theme"] (js "@af/compiled") eq_refl
                (or_introl eq_refl)) as [A _].
  pose proof (O [js "@af/compiled"; js "./theme"] (js "./theme") eq_refl
                (or_intror (or_introl eq_refl))) as [_ R].
  split; [exact D|]. split; [exact (A eq_refl) | exact (R eq_refl)].
Defined.

Lemma X4_witness :
  snd (@pre posix_path failing_host module_resolver_opts (js "/repo") None
         empty_file no_globals) = None
  /\ globalCache (fst (@pre posix_path failing_host module_resolver_opts
                         (js "/repo") None empty_file no_globals)) = Some 0.
Proof.
  pose proof (@X4_pre_fails_only_when_the_resolver_cannot_be_loaded
                posix_path failing_host module_resolver_opts (js "/repo") None
                empty_file no_globals) as (F & _ & _ & _ & Gon & _).
  split.
  - apply F. exists (js "./resolver"). split; reflexivity.
  - exact (Gon eq_refl).
Defined.

Lemma X5_witness :
  nth_error (heap (fst second_shared)) 1
  = Some {| initializedWith := [shared_cache_opts] |}
  /\ nth_error (heap (fst second_shared)) 0 = nth_error (heap (fst first_shared)) 0.
Proof.
  pose proof (X5_new_cache_is_initialised_once shared_cache_opts (js "/repo")
                (Some (js "/repo/b.tsx")) empty_file (fst first_shared))
    as (New & Old & _).
  split; [exact New|]. apply (Old 0). simpl. lia.
Defined.

Lemma X6_witness :
  compiledImports (enter source_pragma_pass) = Some CompiledImports.empty
  /\ jsxImportSource (pragma (enter source_pragma_pass)) = true.
Proof.
  apply (proj1 (X6_source_pragma_installs_an_empty_record source_pragma_pass)).
  exists {| value := js "* @jsxImportSource @compiled/react " |}.
  split; [now left | reflexivity].
Defined.

Lemma X7_witness :
  usesXcss (enter xcss_pass) = true
  /\ usesXcss (enter (enter xcss_pass)) = true
  /\ pathsToCleanup (enter (enter xcss_pass)) = pathsToCleanup (enter xcss_pass).
Proof.
  split; [reflexivity|].
  destruct (X7_enter_only_switches_flags_on (enter xcss_pass))
    as (F & X & _).
  split; [exact (X eq_refl)|].
  destruct F as (_ & _ & _ & _ & _ & _ & _ & _ & Q & _). exact Q.
Defined.

Lemma X8_witness :
  xcss_test (code (file unscanned_pass)) = true
  /\ usesXcss (enter unscanned_pass) = usesXcss unscanned_pass.
Proof.
  split; [reflexivity|].
  pose proof (X8_processXcss_false_disables_the_scan unscanned_pass) as T.
  exact (T eq_refl).
Defined.


Lemma X10_witness :
  filter is_import_forwardRef (emitted exit api_world)
  = [EvUnshiftContainer import_forwardRef].
Proof.
  pose proof (X10_forwardRef_import api_world) as T.
  destruct (T eq_refl) as [Hiff _]. apply Hiff. split; reflexivity.
Defined.

Lemma X11_witness :
  filter is_included_files_event (emitted exit callback_world)
  = [EvOnIncludedFiles 7 [js "/repo/a.ts"; js "/repo/b.ts"]].
Proof.
  pose proof (proj1 (X11_onIncludedFiles_is_called_at_most_once callback_world)) as T.
  apply (T eq_refl 7 eq_refl). discriminate.
Defined.

Lemma X13_witness :
  ImportDeclaration
    {| source := DEFAULT_IMPORT_SOURCE;
       specifiers := [ImportDefaultSpecifier (js "Compiled")] |}
    (fst (ImportDeclaration api_import (enter app_pass)))
  = (fst (ImportDeclaration api_import (enter app_pass)),
     Some {| source := DEFAULT_IMPORT_SOURCE;
             specifiers := [ImportDefaultSpecifier (js "Compiled")] |}).
Proof.
  pose proof (X13_ImportDeclaration_is_idempotent api_import
                {| source := DEFAULT_IMPORT_SOURCE;
                   specifiers := [ImportDefaultSpecifier (js "Compiled")] |}
                (enter app_pass)) as T.
  exact (T eq_refl eq_refl).
Defined.

Lemma X14_witness :
  exists r',
    compiledImports (fst (ImportDeclaration class_names_import api_pass)) = Some r'
    /\ CompiledImports.get API_styled r' = Some (js "s").
Proof.
  pose proof (X14_bindings_accumulate_across_declarations
                class_names_import api_pass) as (_ & _ & _ & T).
  destruct (T eq_refl
              {| CompiledImports.styled := Some (js "s");
                 CompiledImports.ClassNames := None;
                 CompiledImports.css := Some (js "css");
                 CompiledImports.keyframes := None;
                 CompiledImports.cssMap := None |} eq_refl) as (r' & E & _ & K).
  exists r'. split; [exact E|].
  rewrite (K API_styled); [reflexivity|].
  intros sp [<- | [<- | []]]; discriminate.
Defined.

Lemma X15_witness :
  nothing_to_do app_pass = true
  /\ nothing_to_do (fst (ImportDeclaration side_effect_import app_pass)) = false
  /\ snd (ImportDeclaration side_effect_import app_pass) = None.
Proof.
  split; [reflexivity|].
  pose proof (proj1 (X15_a_recognised_import_enables_finalization
                       side_effect_import app_pass)) as T.
  destruct (T eq_refl) as [G R]. split; [exact G | exact (R eq_refl)].
Defined.

Lemma X16_witness :
  emitted (JSXOpeningElement 3) xcss_world = [EvVisitXcssPropPath 3]
  /\ emitted (JSXOpeningElement 3) (sample_world api_statements (set_usesXcss true api_pass))
     = [EvVisitXcssPropPath 3; EvVisitCssPropPath 3].
Proof.
  pose proof (X16_opening_element_runs_both_handlers_in_order 3 xcss_world)
    as (_ & _ & _ & Only).
  pose proof (X16_opening_element_runs_both_handlers_in_order 3
                (sample_world api_statements (set_usesXcss true api_pass)))
    as (_ & _ & Both & _).
  split.
  - exact (proj1 (Only eq_refl eq_refl)).
  - apply (Both eq_refl). discriminate.
Defined.

Lemma X17_witness :
  emitted (JSXElement 5) class_names_world = [EvVisitClassNamesPath 5]
  /\ run (JSXElement 5) api_world = api_world.
Proof.
  pose proof (X17_ClassNames_import_switches_the_element_visitor_on
                class_names_import (enter app_pass) 5 class_names_world)
    as (On & _).
  pose proof (X17_ClassNames_import_switches_the_element_visitor_on
                class_names_import (enter app_pass) 5 api_world)
    as (_ & Off).
  split.
  - apply (On eq_refl (js "CN") []
             [ImportSpecifier (Identifier (js "css")) (js "css")] eq_refl).
    + intros sp [<- | []]. discriminate.
    + discriminate.
    + reflexivity.
  - apply Off. intros record [= <-]. reflexivity.
Defined.

Lemma X18_witness :
  run exit plain_world = plain_world
  /\ run exit xcss_world <> xcss_world.
Proof.
  pose proof (X18_untouched_file_iff_no_pragma_and_no_xcss sample_opts (js "/repo")
                (Some (js "/repo/src/app.tsx")) empty_file no_globals app_pass
                plain_world) as Plain.
  pose proof (X18_untouched_file_iff_no_pragma_and_no_xcss sample_opts (js "/repo")
                (Some (js "/repo/src/app.tsx"))
                (sample_file [] "<Box Xcss={styles} />") no_globals xcss_pass
                xcss_world) as Xcss.
  split.
  - apply (Plain eq_refl eq_refl). split.
    + intros c [].
    + now right.
  - intros E. apply (Xcss eq_refl eq_refl) in E as [_ [E | E]]; discriminate.
Defined.

Lemma X19_witness :
  nothing_to_do (state source_pragma_world) = false
  /\ filter is_import_React (emitted exit source_pragma_world) = []
  /\ scope_getBinding (js "React") (tree_at_React_check source_pragma_world) = false.
Proof.
  pose proof (X19_source_pragma_runs_finalization_without_React_import
                source_pragma_pass source_pragma_world) as T.
  assert (P : exists c, In c (comments_of (file source_pragma_pass))
                /\ JSX_SOURCE_ANNOTATION_REGEX_exec (value c)
                   = Some DEFAULT_IMPORT_SOURCE).
  { exists {| value := js "* @jsxImportSource @compiled/react " |}.
    split; [now left | reflexivity]. }
  destruct (T P eq_refl) as [G R].
  split; [exact G|]. split; [exact R | reflexivity].
Defined.

(* ================================================================== *)
(** ** The cleanup queue, the dispatch and the [React] import *)

Section CleanupAndDispatch.

Context {PM : PathModule} {HO : Host} {B : Babel} {H : Handlers}.

Lemma applied_is_a_prefix (q : list Cleanup) :
  forall t : Tree, exists rest, q = applied q t ++ rest.
Proof.
  induction q as [|c q IH]; intros t; simpl.
  - now exists [].
  - destruct (apply_cleanup t c) as [t'|].
    + destruct (IH t') as [rest E]. exists rest. simpl. now rewrite <- E.
    + now exists (c :: q).
Qed.

Lemma cleanup_throws_spec (q : list Cleanup) :
  forall t : Tree, cleanup_throws q t = false <-> applied q t = q.
Proof.
  induction q as [|c q IH]; intros t; simpl.
  - now split.
  - destruct (apply_cleanup t c) as [t'|].
    + rewrite IH. split; [now intros -> | now intros [= E]].
    + split; discriminate.
Qed.

Lemma apply_all_spec (q : list Cleanup) :
  forall (t t' : Tree),
    apply_all q t = Some t'
    <-> cleanup_throws q t = false /\ cleaned_tree q t = t'.
Proof.
  unfold apply_all.
  assert (N : forall l : list Cleanup,
             fold_left
               (fun acc c =>
                  match acc with
                  | Some t0 => apply_cleanup t0 c
                  | None => None
                  end) l None = None).
  { induction l as [|c l IHl]; [reflexivity | exact IHl]. }
  induction q as [|c q IH]; intros t t'; simpl.
  - split; [intros [= <-]; now split | intros [_ <-]; reflexivity].
  - destruct (apply_cleanup t c) as [t1|].
    + apply IH.
    + rewrite N. split; [discriminate | intros [E _]; discriminate].
Qed.

Lemma prologue_cleans_nothing (w : World) :
  filter is_cleanup_event (prologue_events w) = [].
Proof.
  unfold prologue_events. rewrite !filter_app.
  rewrite React_events_filtered, forwardRef_events_filtered by reflexivity.
  now rewrite included_events_filtered by reflexivity.
Qed.

(** C2. A cleanup action is only queued during traversal and applied at
    finalization.  When the call visitor reaches its enqueue branch it
    appends one [replace] action to [pathsToCleanup] and makes no
    [remove]/[replaceWith] call.  When [Program.exit] runs (it is past its
    guard), nothing it does before the loop is a cleanup call; the loop then
    makes the calls of the queue in queue (FIFO) order, whatever the place
    of the nodes in the tree, one call per action: [remove] deletes the
    node, [replace] puts a null literal in its place.  If no Babel call
    throws, every queued action has been applied exactly once and the final
    tree is the queue applied front to back; a call that throws (Babel
    refuses a path that was already removed) ends [Program.exit] there, the
    actions after it are not applied. *)
Theorem C2_cleanup_queue_applied_once_in_fifo_order
    (p : NodePath) (w_visit w : World) :
  isCompiledCSSMapCallExpression (path_node p (tree w_visit)) (state w_visit) = false ->
  isCompiledUtil (path_node p (normalized p w_visit)) (state w_visit) = true ->
  nothing_to_do (state w) = false ->
  (pathsToCleanup (state (run (TaggedTemplateExpression_CallExpression p) w_visit))
     = pathsToCleanup (state w_visit) ++ [{| path := p; action := replace |}]
   /\ tree (run (TaggedTemplateExpression_CallExpression p) w_visit)
      = normalized p w_visit
   /\ filter is_cleanup_event
        (emitted (TaggedTemplateExpression_CallExpression p) w_visit) = [])
  /\ filter is_cleanup_event (prologue_events w) = []
  /\ emitted exit w
     = prologue_events w
       ++ map cleanup_event (applied (pathsToCleanup (state w)) (tree_before_cleanup w))
  /\ tree (run exit w)
     = cleaned_tree (pathsToCleanup (state w)) (tree_before_cleanup w)
  /\ state (run exit w) = state w
  /\ (exists rest,
        pathsToCleanup (state w)
        = applied (pathsToCleanup (state w)) (tree_before_cleanup w) ++ rest)
  /\ (threw exit w = false
      <-> applied (pathsToCleanup (state w)) (tree_before_cleanup w)
          = pathsToCleanup (state w))
  /\ (forall t',
        apply_all (pathsToCleanup (state w)) (tree_before_cleanup w) = Some t' ->
        threw exit w = false
        /\ emitted exit w
           = prologue_events w ++ map cleanup_event (pathsToCleanup (state w))
        /\ tree (run exit w) = t')
  /\ (threw exit w = false ->
      apply_all (pathsToCleanup (state w)) (tree_before_cleanup w)
      = Some (tree (run exit w))).
Proof.
  intros Hmap Hutil Hopen. split.
  { pose proof (call_visitor_run p w_visit) as E. simpl in E.
    rewrite Hmap, Hutil in E.
    assert (L : emitted (TaggedTemplateExpression_CallExpression p) w_visit
                = normalization_events p w_visit).
    { apply emitted_of_log. now rewrite E. }
    rewrite L, E. simpl. repeat split.
    unfold normalization_events.
    now destruct (hasStyles (path_node p (tree w_visit)) (state w_visit)). }
  destruct (exit_trace w Hopen) as (L & S & T & X).
  assert (Em : emitted exit w
               = prologue_events w
                 ++ map cleanup_event
                      (applied (pathsToCleanup (state w)) (tree_before_cleanup w))).
  { apply emitted_of_log. exact L. }
  split; [apply prologue_cleans_nothing|].
  split; [exact Em|]. split; [exact T|]. split; [exact S|].
  split; [apply applied_is_a_prefix|].
  split; [rewrite X; apply cleanup_throws_spec|].
  split.
  - intros t' A. apply apply_all_spec in A as [A1 A2].
    rewrite X, Em, T. split; [exact A1|].
    apply cleanup_throws_spec in A1. rewrite A1. now split.
  - intros Hx. rewrite X in Hx. rewrite T. apply apply_all_spec. now split.
Qed.

(** The other fields of the pass when the visitor has queued an action. *)
Lemma push_keeps_the_rest (q : list Cleanup) (s : State) :
  same_but_queue s (set_pathsToCleanup q s).
Proof.
  unfold same_but_queue. repeat split.
Qed.

(** C5. Dispatch of a call or tagged-template node, in order and with
    exactly one outcome.  (1) A [cssMap] call is handed to
    [visitCssMapPath] and nothing else is done.  (2) Otherwise a [css] or
    [keyframes] construct, tagged template or call, gets exactly one
    [replace] action appended to [pathsToCleanup]; nothing else of the pass
    changes and no handler is called.  (3) Otherwise a [styled] construct is
    handed to [visitStyledPath].  (4) Otherwise nothing is done.  (5) Past
    the [cssMap] test, a [css] or [styled] construct has
    [normalizePropsUsage] applied first, before the queueing or the
    handler (a [keyframes] construct has not).  The tests of (2)-(4) read
    the node as the normalization left it. *)
Theorem C5_call_dispatch_is_ordered_and_exclusive (p : NodePath) (w : World) :
  let visit := TaggedTemplateExpression_CallExpression p in
  let s := state w in
  let n := path_node p (tree w) in
  let styles :=
    isCompiledCSSTaggedTemplateExpression n s
    || isCompiledStyledTaggedTemplateExpression n s
    || isCompiledCSSCallExpression n s
    || isCompiledStyledCallExpression n s in
  let t1 := if styles then normalizePropsUsage p (tree w) else tree w in
  let normalization := if styles then [EvNormalizePropsUsage p] else [] in
  let n' := path_node p t1 in
  let util :=
    isCompiledCSSTaggedTemplateExpression n' s
    || isCompiledKeyframesTaggedTemplateExpression n' s
    || isCompiledCSSCallExpression n' s
    || isCompiledKeyframesCallExpression n' s in
  let component :=
    isCompiledStyledTaggedTemplateExpression n' s
    || isCompiledStyledCallExpression n' s in
  (isCompiledCSSMapCallExpression n s = true ->
     (tree (run visit w), state (run visit w)) = visitCssMapPath p (tree w, s)
     /\ emitted visit w = [EvVisitCssMapPath p])
  /\ (isCompiledCSSMapCallExpression n s = false ->
      util = true ->
        tree (run visit w) = t1
        /\ pathsToCleanup (state (run visit w))
           = pathsToCleanup s ++ [{| path := p; action := replace |}]
        /\ same_but_queue s (state (run visit w))
        /\ emitted visit w = normalization)
  /\ (isCompiledCSSMapCallExpression n s = false ->
      util = false ->
      component = true ->
        (tree (run visit w), state (run visit w)) = visitStyledPath p (t1, s)
        /\ emitted visit w = normalization ++ [EvVisitStyledPath p])
  /\ (isCompiledCSSMapCallExpression n s = false ->
      util = false ->
      component = false ->
        tree (run visit w) = t1
        /\ state (run visit w) = s
        /\ emitted visit w = normalization)
  /\ (isCompiledCSSMapCallExpression n s = false ->
      styles = true ->
        exists rest, emitted visit w = EvNormalizePropsUsage p :: rest).
Proof.
  intros visit s n styles t1 normalization n' util component.
  pose proof (call_visitor_run p w) as E. simpl in E.
  unfold normalized, normalization_events, hasStyles, isCompiledUtil,
    isCompiledComponent in E.
  fold s n in E. fold styles in E. fold t1 normalization in E.
  fold n' in E. fold util component in E. fold visit in E.
  split; [|split; [|split; [|split]]].
  - intros Hmap. split.
    + rewrite E, Hmap. simpl. now destruct (visitCssMapPath p (tree w, s)).
    + apply emitted_of_log. now rewrite E, Hmap.
  - intros Hmap Hutil. split; [|split; [|split]].
    + now rewrite E, Hmap, Hutil.
    + now rewrite E, Hmap, Hutil.
    + rewrite E, Hmap, Hutil. apply push_keeps_the_rest.
    + apply emitted_of_log. now rewrite E, Hmap, Hutil.
  - intros Hmap Hutil Hcomp. split.
    + rewrite E, Hmap, Hutil, Hcomp. simpl.
      now destruct (visitStyledPath p (t1, s)).
    + apply emitted_of_log. now rewrite E, Hmap, Hutil, Hcomp.
  - intros Hmap Hutil Hcomp. split; [|split].
    + now rewrite E, Hmap, Hutil, Hcomp.
    + now rewrite E, Hmap, Hutil, Hcomp.
    + apply emitted_of_log. now rewrite E, Hmap, Hutil, Hcomp.
  - intros Hmap Hstyles.
    assert (N : normalization = [EvNormalizePropsUsage p]).
    { unfold normalization. now rewrite Hstyles. }
    assert (R : exists rest, log (run visit w)
                             = log w ++ EvNormalizePropsUsage p :: rest).
    { rewrite E, Hmap, N.
      destruct util; [|destruct component]; simpl; eexists; reflexivity. }
    destruct R as [rest R]. exists rest. now apply emitted_of_log.
Qed.




End CleanupAndDispatch.

(* ================================================================== *)
(** ** These three on the sample inputs *)

Lemma C2_witness :
  nothing_to_do (state mixed_world) = false
  /\ pathsToCleanup (state mixed_world) = mixed_queue
  /\ threw exit mixed_world = false
  /\ filter is_cleanup_event (emitted exit mixed_world)
     = [EvReplaceWith 3 NullLiteral; EvRemove 1; EvReplaceWith 2 NullLiteral]
  /\ Sample.body (tree (run exit mixed_world))
     = [Sample.Inserted Noop;
        Sample.Inserted import_forwardRef;
        Sample.Inserted import_React;
        Sample.Import [js "ax"; js "ix"];
        Sample.ExpressionStatement 2 Sample.Null;
        Sample.ExpressionStatement 3 Sample.Null]
  /\ pathsToCleanup (state (run (TaggedTemplateExpression_CallExpression 1) api_world))
     = [{| path := 1; action := replace |}].
Proof.
  split; [reflexivity|]. split; [reflexivity|].
  pose proof (C2_cleanup_queue_applied_once_in_fifo_order 1 api_world
                mixed_world) as T.
  destruct (T eq_refl eq_refl eq_refl)
    as ((Hq & _) & _ & _ & _ & _ & _ & _ & Hall & _).
  assert (A : apply_all (pathsToCleanup (state mixed_world))
                 (tree_before_cleanup mixed_world)
               = Some (cleaned_tree mixed_queue (tree_before_cleanup mixed_world))).
  { vm_compute. reflexivity. }
  destruct (Hall _ A) as (Hx & He & Ht).
  split; [exact Hx|]. split; [now rewrite He|].
  split; [now rewrite Ht | exact Hq].
Defined.

(** A queue that replaces a node it has removed: the second call throws,
    [Program.exit] ends there, and the third action is never applied. *)
Lemma cleanup_stops_at_a_removed_path :
  threw exit removed_twice_world = true
  /\ filter is_cleanup_event (emitted exit removed_twice_world) = [EvRemove 1]
  /\ applied removed_twice_queue (tree_before_cleanup removed_twice_world)
     = [{| path := 1; action := remove |}]
  /\ path_node 2 (tree (run exit removed_twice_world))
     = Sample.TaggedTemplateExpression (Sample.Member (js "s") (js "div")).
Proof.
  repeat split.
Qed.

Lemma C5_witness :
  (pathsToCleanup (state (run (TaggedTemplateExpression_CallExpression 1) every_api_world))
   = [{| path := 1; action := replace |}]
   /\ emitted (TaggedTemplateExpression_CallExpression 1) every_api_world = [])
  /\ (pathsToCleanup (state (run (TaggedTemplateExpression_CallExpression 6) every_api_world))
      = [{| path := 6; action := replace |}])
  /\ (pathsToCleanup (state (run (TaggedTemplateExpression_CallExpression 2) every_api_world))
      = [{| path := 2; action := replace |}]
      /\ emitted (TaggedTemplateExpression_CallExpression 2) every_api_world
         = [EvNormalizePropsUsage 2])
  /\ emitted (TaggedTemplateExpression_CallExpression 3) every_api_world
     = [EvNormalizePropsUsage 3; EvVisitStyledPath 3]
  /\ run (TaggedTemplateExpression_CallExpression 4) every_api_world = every_api_world
  /\ emitted (TaggedTemplateExpression_CallExpression 5) every_api_world
     = [EvVisitCssMapPath 5].
Proof.
  destruct (C5_call_dispatch_is_ordered_and_exclusive 1 every_api_world)
    as (_ & Keyframes & _).
  destruct (C5_call_dispatch_is_ordered_and_exclusive 6 every_api_world)
    as (_ & KeyframesCall & _).
  destruct (C5_call_dispatch_is_ordered_and_exclusive 2 every_api_world)
    as (_ & Css & _).
  destruct (C5_call_dispatch_is_ordered_and_exclusive 3 every_api_world)
    as (_ & _ & Styled & _).
  destruct (C5_call_dispatch_is_ordered_and_exclusive 4 every_api_world)
    as (_ & _ & _ & Other & _).
  destruct (C5_call_dispatch_is_ordered_and_exclusive 5 every_api_world)
    as (Map & _).
  destruct (Keyframes eq_refl eq_refl) as (_ & Q1 & _ & E1).
  destruct (KeyframesCall eq_refl eq_refl) as (_ & Q6 & _).
  destruct (Css eq_refl eq_refl) as (_ & Q2 & _ & E2).
  destruct (Styled eq_refl eq_refl eq_refl) as (_ & E3).
  destruct (Other eq_refl eq_refl eq_refl) as (_ & _ & E4).
  destruct (Map eq_refl) as (_ & E5).
  split; [split; [exact Q1 | exact E1]|].
  split; [exact Q6|].
  split; [split; [exact Q2 | exact E2]|].
  split; [exact E3|]. split; [reflexivity | exact E5].
Defined.


